(** * The retrieve / rerank / generate pipeline of
    "Lab 2/2.4 Bedrock Inference with Reranking.ipynb"

    A shallow embedding of the two notebook functions
    [search_kb_with_optional_rerank] and [retrieve_and_generate].

    The notebook's code is dynamically typed: it inspects the service
    responses with [in], [.get], [isinstance] and subscripts.  The embedding
    keeps that: responses are values of a small Python value universe
    [PyVal], every operation that Python can refuse returns in an
    exception type, and the remote calls are threaded through a small monad
    that records each call made on the client. *)

From Stdlib Require Import String Ascii List ZArith Bool Lia.
From Stdlib Require Import DecimalString.
Import ListNotations.

Local Open Scope string_scope.
Local Open Scope Z_scope.

(* ------------------------------------------------------------------ *)
(** ** Python values and exceptions                                     *)
(* ------------------------------------------------------------------ *)

(** The values a parsed service response is made of.  A [str] is a
    [string]: one [ascii] stands for one character (code points below
    256).  A float is never computed with by this program, only stored,
    tested for truth and printed: it is carried by its [repr]. A [dict] is
    an association list in insertion order, keyed by strings as every JSON
    object is; a lookup takes the first binding of a key. *)
#[warnings="-register-all"]
Inductive PyVal : Type :=
| VNone
| VBool (b : bool)
| VInt (z : Z)
| VFloat (repr : string)
| VStr (s : string)
| VList (l : list PyVal)
| VDict (d : list (string * PyVal)).

Inductive PyExc : Type :=
| TypeError
| KeyError
| IndexError
| AttributeError
| ClientError (msg : string).

Inductive outcome (A : Type) : Type :=
| Ok (a : A)
| Raise (e : PyExc).
Arguments Ok {A} a.
Arguments Raise {A} e.

Definition rbind {A B} (r : outcome A) (k : A -> outcome B) : outcome B :=
  match r with
  | Ok a => k a
  | Raise e => Raise e
  end.

Declare Scope res_scope.
Delimit Scope res_scope with res.
Notation "x <- c ;; k" := (rbind c (fun x => k))
  (at level 61, c at next level, right associativity) : res_scope.
Notation "' p <- c ;; k" := (rbind c (fun x => let p := x in k))
  (at level 61, p pattern, c at next level, right associativity) : res_scope.

(* ------------------------------------------------------------------ *)
(** ** Strings                                                          *)
(* ------------------------------------------------------------------ *)

(** [s[:n]] *)
Definition str_prefix (n : nat) (s : string) : string := substring 0 n s.

(** [sep.join(l)] on a list of [str] *)
Definition str_join (sep : string) (l : list string) : string :=
  String.concat sep l.

(** [needle in s] on two [str] *)
Definition str_contains (needle s : string) : bool :=
  match index 0 needle s with
  | Some _ => true
  | None => false
  end.

(** The characters of a [str], as iterating over it yields them. *)
Fixpoint str_chars (s : string) : list string :=
  match s with
  | EmptyString => []
  | String c s' => String c EmptyString :: str_chars s'
  end.

(** [str(z)] for an [int] *)
Definition str_of_int (z : Z) : string :=
  NilZero.string_of_int (Z.to_int z).

Definition has_char (c : ascii) (s : string) : bool :=
  existsb (Ascii.eqb c) (list_ascii_of_string s).

Definition hex_digit (n : nat) : ascii :=
  match n with
  | 0 => "0" | 1 => "1" | 2 => "2" | 3 => "3" | 4 => "4" | 5 => "5"
  | 6 => "6" | 7 => "7" | 8 => "8" | 9 => "9" | 10 => "a" | 11 => "b"
  | 12 => "c" | 13 => "d" | 14 => "e" | _ => "f"
  end%nat%char.

Definition backslash : ascii := "092"%char.
Definition squote : ascii := "039"%char.
Definition dquote : ascii := "034"%char.

Definition chr (c : ascii) : string := String c EmptyString.

(** One character of [repr(s)], for the quote character [q] chosen. *)
Definition repr_char (q c : ascii) : string :=
  let n := nat_of_ascii c in
  if (Ascii.eqb c q || Ascii.eqb c backslash)%bool then chr backslash ++ chr c
  else if (n =? 9)%nat then chr backslash ++ "t"
  else if (n =? 10)%nat then chr backslash ++ "n"
  else if (n =? 13)%nat then chr backslash ++ "r"
  else if ((n <? 32) || (n =? 127) || ((128 <=? n) && (n <=? 160))
           || (n =? 173))%nat%bool
       then chr backslash ++ "x"
            ++ chr (hex_digit (n / 16)) ++ chr (hex_digit (n mod 16))
  else chr c.

(** [repr(s)] for a [str]: single quotes, unless the text has a single
    quote and no double quote. *)
Definition str_repr (s : string) : string :=
  let q := if (has_char squote s && negb (has_char dquote s))%bool
           then dquote else squote in
  chr q ++ String.concat EmptyString
             (map (repr_char q) (list_ascii_of_string s)) ++ chr q.

(* ------------------------------------------------------------------ *)
(** ** The builtins the notebook applies to response values            *)
(* ------------------------------------------------------------------ *)

(** [repr(v)] *)
Fixpoint py_repr (v : PyVal) : string :=
  match v with
  | VNone => "None"
  | VBool true => "True"
  | VBool false => "False"
  | VInt z => str_of_int z
  | VFloat r => r
  | VStr s => str_repr s
  | VList l => "[" ++ String.concat ", " (map py_repr l) ++ "]"
  | VDict d =>
      "{" ++ String.concat ", "
               (map (fun kv => let '(k, x) := kv in
                               str_repr k ++ ": " ++ py_repr x) d) ++ "}"
  end.

(** [str(v)], which is also what an f-string field [{v}] prints. *)
Definition py_str (v : PyVal) : string :=
  match v with
  | VStr s => s
  | _ => py_repr v
  end.

(** Truth value of [v], as [if], [and] and a conditional expression
    test it. *)
Definition truthy (v : PyVal) : bool :=
  match v with
  | VNone => false
  | VBool b => b
  | VInt z => negb (z =? 0)
  | VFloat r => negb (String.eqb r "0.0" || String.eqb r "-0.0")
  | VStr s => negb (String.eqb s EmptyString)
  | VList l => match l with [] => false | _ => true end
  | VDict d => match d with [] => false | _ => true end
  end.

Fixpoint dict_lookup (k : string) (d : list (string * PyVal)) : option PyVal :=
  match d with
  | [] => None
  | (k', x) :: d' => if String.eqb k k' then Some x else dict_lookup k d'
  end.

Definition dict_has (k : string) (d : list (string * PyVal)) : bool :=
  match dict_lookup k d with
  | Some _ => true
  | None => false
  end.

Definition is_str (k : string) (v : PyVal) : bool :=
  match v with
  | VStr s => String.eqb s k
  | _ => false
  end.

(** [k in v] for a string [k]: key membership in a dict, element
    membership in a list, substring test in a str; other values are not
    containers. *)
Definition py_contains (k : string) (v : PyVal) : outcome bool :=
  match v with
  | VDict d => Ok (dict_has k d)
  | VList l => Ok (existsb (is_str k) l)
  | VStr s => Ok (str_contains k s)
  | _ => Raise TypeError
  end.

(** [v[k]] for a string [k]. *)
Definition py_getitem (k : string) (v : PyVal) : outcome PyVal :=
  match v with
  | VDict d =>
      match dict_lookup k d with
      | Some x => Ok x
      | None => Raise KeyError
      end
  | _ => Raise TypeError
  end.

(** [v.get(k, default)]: only a dict has the method. *)
Definition py_get (k : string) (default : PyVal) (v : PyVal) : outcome PyVal :=
  match v with
  | VDict d =>
      match dict_lookup k d with
      | Some x => Ok x
      | None => Ok default
      end
  | _ => Raise AttributeError
  end.

(** The items a [for] loop or a comprehension draws from [v]. *)
Definition py_iter (v : PyVal) : outcome (list PyVal) :=
  match v with
  | VList l => Ok l
  | VStr s => Ok (map VStr (str_chars s))
  | VDict d => Ok (map (fun kv => VStr (fst kv)) d)
  | _ => Raise TypeError
  end.

(** An [int] usable as a list index; [bool] is a subclass of [int]. *)
Definition py_index (v : PyVal) : outcome Z :=
  match v with
  | VInt z => Ok z
  | VBool b => Ok (if b then 1 else 0)
  | _ => Raise TypeError
  end.

(** [l[z]] on a list: negative indices count from the end. *)
Definition list_getitem {A} (l : list A) (z : Z) : outcome A :=
  let n := Z.of_nat (length l) in
  let z' := if z <? 0 then z + n else z in
  if (z' <? 0) || (n <=? z') then Raise IndexError
  else match nth_error l (Z.to_nat z') with
       | Some x => Ok x
       | None => Raise IndexError
       end.

(** [v[z]] for an integer [z]: an item of a list, a character of a str;
    a dict keyed by strings has no such key. *)
Definition py_getitem_int (z : Z) (v : PyVal) : outcome PyVal :=
  match v with
  | VList l => list_getitem l z
  | VStr s => (c <- list_getitem (str_chars s) z ;; Ok (VStr c))%res
  | VDict _ => Raise KeyError
  | _ => Raise TypeError
  end.

(** [v[:n]] (a dict refuses a slice with a TypeError on the notebook's
    Python 3.11) *)
Definition py_slice_to (n : nat) (v : PyVal) : outcome PyVal :=
  match v with
  | VStr s => Ok (VStr (str_prefix n s))
  | VList l => Ok (VList (firstn n l))
  | _ => Raise TypeError
  end.

(** [sep.join(l)]: every item has to be a [str]. *)
Fixpoint all_str (l : list PyVal) : outcome (list string) :=
  match l with
  | [] => Ok []
  | VStr s :: l' => (ss <- all_str l' ;; Ok (s :: ss))%res
  | _ :: _ => Raise TypeError
  end.

Definition py_join (sep : string) (l : list PyVal) : outcome string :=
  (ss <- all_str l ;; Ok (str_join sep ss))%res.

(** A comprehension [[f(x) for x in l]]: left to right, the first
    exception ends it. *)
Fixpoint mapM {A B} (f : A -> outcome B) (l : list A) : outcome (list B) :=
  match l with
  | [] => Ok []
  | x :: l' => (y <- f x ;; ys <- mapM f l' ;; Ok (y :: ys))%res
  end.

(* ------------------------------------------------------------------ *)
(** ** The remote calls                                                 *)
(* ------------------------------------------------------------------ *)

(** The three requests the notebook sends, with the parts of each that
    vary.  [Retrieve] is [client.retrieve], [Rerank] is [client.rerank]
    with one inline text source per document, [InvokeModel] is
    [client.invoke_model] with a single user message. *)
Inductive Call : Type :=
| Retrieve (knowledgeBaseId query : PyVal) (numberOfResults : Z)
| Rerank (query modelArn : PyVal) (numberOfResults : Z) (sources : list string)
| InvokeModel (modelId : string) (max_tokens : Z) (prompt : string).

(** What the service answers to a request, or the exception the SDK
    raises.  For [InvokeModel] the answer is the decoded JSON body,
    [json.loads(response["body"].read())].  Building the two clients
    ([boto3.client] with the notebook's global [regionName]) sends
    nothing and is not part of the model. *)
Definition Client : Type := Call -> outcome PyVal.

(** A computation that runs against the services: it extends the log of
    the calls made so far and ends with a value or an exception. *)
Definition M (A : Type) : Type := list Call -> outcome A * list Call.

Definition mret {A} (a : A) : M A := fun log => (Ok a, log).

Definition mbind {A B} (m : M A) (k : A -> M B) : M B :=
  fun log =>
    match m log with
    | (Ok a, log') => k a log'
    | (Raise e, log') => (Raise e, log')
    end.

Definition lift {A} (r : outcome A) : M A := fun log => (r, log).

Definition call (client : Client) (c : Call) : M PyVal :=
  fun log => (client c, (log ++ [c])%list).

Declare Scope mon_scope.
Delimit Scope mon_scope with mon.
Notation "x <- c ;; k" := (mbind c (fun x => k))
  (at level 61, c at next level, right associativity) : mon_scope.
Notation "' p <- c ;; k" := (mbind c (fun x => let p := x in k))
  (at level 61, p pattern, c at next level, right associativity) : mon_scope.

Definition is_rerank (c : Call) : bool :=
  match c with
  | Rerank _ _ _ _ => true
  | _ => false
  end.

Definition nl : string := String "010"%char EmptyString.
Definition ellipsis : string := "...".

(* ------------------------------------------------------------------ *)
(** ** [search_kb_with_optional_rerank]                                *)
(* ------------------------------------------------------------------ *)

(** The comprehension's expression
    [item.get("span", empty) if isinstance(item, dict) else str(item)],
    where [empty] is the empty str. *)
Definition fragment (item : PyVal) : outcome PyVal :=
  match item with
  | VDict _ => py_get "span" (VStr EmptyString) item
  | _ => Ok (VStr (py_str item))
  end.

(** The text of one retrieval hit:
[[
  text = (the empty str)
  if "content" in result and "text" in result["content"]:
      text = " ".join([... for item in result["content"]["text"]])
]] *)
Definition extract_text (result : PyVal) : outcome string :=
  (has_content <- py_contains "content" result ;;
   has_text <- (if has_content : bool
                then content <- py_getitem "content" result ;;
                     py_contains "text" content
                else Ok false) ;;
   if has_text : bool
   then content <- py_getitem "content" result ;;
        frags <- py_getitem "text" content ;;
        items <- py_iter frags ;;
        parts <- mapM fragment items ;;
        py_join " " parts
   else Ok EmptyString)%res.

(** [text[:300] + "..." if len(text) > 300 else text] *)
Definition truncate_text (text : string) : string :=
  if (300 <? String.length text)%nat
  then str_prefix 300 text ++ ellipsis
  else text.

(** The entry appended to [original_results]. *)
Definition RetrievedDocument (position : Z) (score : PyVal) (text : string)
  : PyVal :=
  VDict [("position", VInt position); ("score", score); ("text", VStr text)].

(** The loop [for i, result in enumerate(...)], started at index [i]
    with the two lists as they stand; each turn appends to both. *)
Fixpoint retrieval_loop (i : nat) (results : list PyVal)
    (original_results : list PyVal) (documents : list string)
  : outcome (list PyVal * list string) :=
  match results with
  | [] => Ok (original_results, documents)
  | result :: rest =>
      (text <- extract_text result ;;
       score <- py_get "scoreValue" (VInt 0) result ;;
       retrieval_loop (S i) rest
         (original_results
            ++ [RetrievedDocument (Z.of_nat i + 1) score (truncate_text text)])%list
         (documents ++ [text])%list)%res
  end.

(** From the retrieve response to the two lists [original_results] and
    [documents]. *)
Definition retrieval_hits (kb_response : PyVal) : outcome (list PyVal) :=
  (hits <- py_get "retrievalResults" (VList []) kb_response ;;
   py_iter hits)%res.

Definition extract_documents (kb_response : PyVal)
  : outcome (list PyVal * list string) :=
  (results <- retrieval_hits kb_response ;;
   retrieval_loop 0 results [] [])%res.

(** The entry appended to [reranked_results]. *)
Definition RerankedDocument (original_position new_position : Z)
    (relevance_score : PyVal) (text : string) : PyVal :=
  VDict [("original_position", VInt original_position);
         ("new_position", VInt new_position);
         ("relevance_score", relevance_score);
         ("text", VStr text)].

(** [idx = result.get("index", 0)], as the integer that [idx + 1] and
    [documents[idx]] both need: a str, None, list or dict fails at
    [idx + 1], a float at [documents[idx]], each with a TypeError and
    before anything is appended, so the integer is taken at once. *)
Definition entry_index (result : PyVal) : outcome Z :=
  (idx <- py_get "index" (VInt 0) result ;;
   py_index idx)%res.

(** The loop over the rerank response, with [reranked_results] as it
    stands. *)
Fixpoint rerank_loop (documents : list string) (results : list PyVal)
    (reranked_results : list PyVal) : outcome (list PyVal) :=
  match results with
  | [] => Ok reranked_results
  | result :: rest =>
      (idx <- entry_index result ;;
       relevance_score <- py_get "relevanceScore" (VInt 0) result ;;
       doc <- list_getitem documents idx ;;
       rerank_loop documents rest
         (reranked_results
            ++ [RerankedDocument (idx + 1)
                  (Z.of_nat (length reranked_results) + 1)
                  relevance_score
                  (str_prefix 300 doc ++ ellipsis)])%list)%res
  end.

(** From the rerank response to [reranked_results]. *)
Definition reranked_entries (reranked : PyVal) : outcome (list PyVal) :=
  (entries <- py_get "results" (VList []) reranked ;;
   py_iter entries)%res.

Definition process_reranked (documents : list string) (reranked : PyVal)
  : outcome (list PyVal) :=
  (results <- reranked_entries reranked ;;
   rerank_loop documents results [])%res.

(** The test [use_reranking and model_arn and documents]. *)
Definition rerank_enabled (use_reranking model_arn : PyVal)
    (documents : list string) : bool :=
  truthy use_reranking && truthy model_arn
  && match documents with [] => false | _ => true end.

Section Pipeline.

Variable client : Client.

Definition search_kb_with_optional_rerank
    (query kb_id model_arn use_reranking : PyVal) : M PyVal :=
  (kb_response <- call client (Retrieve kb_id query 5) ;;
   '(original_results, documents) <- lift (extract_documents kb_response) ;;
   if rerank_enabled use_reranking model_arn documents
   then reranked <- call client (Rerank query model_arn 5 documents) ;;
        reranked_results <- lift (process_reranked documents reranked) ;;
        mret (VDict [("original_results", VList original_results);
                     ("reranked_results", VList reranked_results)])
   else mret (VDict [("original_results", VList original_results)]))%mon.

(* ------------------------------------------------------------------ *)
(** ** [retrieve_and_generate]                                          *)
(* ------------------------------------------------------------------ *)

(** [[doc["text"] for doc in results[key]]] *)
Definition doc_texts (key : string) (results : PyVal) : outcome (list PyVal) :=
  (found <- py_getitem key results ;;
   items <- py_iter found ;;
   mapM (py_getitem "text") items)%res.

(** Step 2, the choice of the documents and of the label:
[[
  if use_reranking and "reranked_results" in results:
      docs = [doc["text"] for doc in results["reranked_results"]]
      source_type = "reranked"
  else:
      docs = [doc["text"] for doc in results["original_results"]]
      source_type = "vector search"
]] *)
Definition select_docs (use_reranking results : PyVal)
  : outcome (list PyVal * string) :=
  (use_reranked <- (if truthy use_reranking
                    then py_contains "reranked_results" results
                    else Ok false) ;;
   if use_reranked : bool
   then docs <- doc_texts "reranked_results" results ;;
        Ok (docs, "reranked")
   else docs <- doc_texts "original_results" results ;;
        Ok (docs, "vector search"))%res.

(** [[f"Document {i+1}: {doc[:300]}..." for i, doc in enumerate(...)]],
    from index [i] on. *)
Fixpoint format_docs (i : nat) (docs : list PyVal) : outcome (list string) :=
  match docs with
  | [] => Ok []
  | doc :: rest =>
      (head <- py_slice_to 300 doc ;;
       lines <- format_docs (S i) rest ;;
       Ok (("Document " ++ str_of_int (Z.of_nat i + 1) ++ ": "
            ++ py_str head ++ ellipsis) :: lines))%res
  end.

(** Step 3, the context and the prompt. *)
Definition build_context (docs : list PyVal) : outcome string :=
  (lines <- format_docs 0 (firstn 3 docs) ;;
   Ok (str_join (nl ++ nl) lines))%res.

Definition build_prompt (query : PyVal) (source_type context : string)
  : string :=
  "Query: " ++ py_str query ++ nl ++ nl
  ++ "Context from " ++ source_type ++ ":" ++ nl
  ++ context ++ nl ++ nl ++ "Answer:".

Definition model_id : string := "anthropic.claude-3-5-sonnet-20241022-v2:0".

(** [response_body["content"][0]["text"]] *)
Definition answer_text (response_body : PyVal) : outcome PyVal :=
  (content <- py_getitem "content" response_body ;;
   first <- py_getitem_int 0 content ;;
   py_getitem "text" first)%res.

Definition retrieve_and_generate
    (query kb_id rerank_model_arn use_reranking : PyVal) : M PyVal :=
  (results <- search_kb_with_optional_rerank
                query kb_id rerank_model_arn use_reranking ;;
   '(docs, source_type) <- lift (select_docs use_reranking results) ;;
   context <- lift (build_context docs) ;;
   response_body <- call client
                      (InvokeModel model_id 500
                         (build_prompt query source_type context)) ;;
   lift (answer_text response_body))%mon.

End Pipeline.

(* ------------------------------------------------------------------ *)
(** ** Specification-side descriptions of the two result lists          *)
(* ------------------------------------------------------------------ *)

(** The entries of [original_results] for hits with these scores and
    texts, the first of them at 0-based index [i]. *)
Fixpoint retrieved_entries (i : nat) (scores : list PyVal)
    (texts : list string) : list PyVal :=
  match scores, texts with
  | score :: scores', text :: texts' =>
      RetrievedDocument (Z.of_nat i + 1) score (truncate_text text)
      :: retrieved_entries (S i) scores' texts'
  | _, _ => []
  end.

(** One rerank entry, read: its index, its score and the document the
    index selects. *)
Definition entry_read (documents : list string) (result : PyVal)
    (read : Z * PyVal * string) : Prop :=
  let '(idx, score, doc) := read in
  entry_index result = Ok idx
  /\ py_get "relevanceScore" (VInt 0) result = Ok score
  /\ list_getitem documents idx = Ok doc.

(** The entries of [reranked_results] for these reads, the first of
    them appended when the list already holds [n] entries. *)
Fixpoint reranked_from (n : nat) (reads : list (Z * PyVal * string))
  : list PyVal :=
  match reads with
  | [] => []
  | (idx, score, doc) :: reads' =>
      RerankedDocument (idx + 1) (Z.of_nat n + 1) score
        (str_prefix 300 doc ++ ellipsis)
      :: reranked_from (S n) reads'
  end.

(** What a fragment of a hit's text contributes to the joined text: a
    mapping its span (nothing when it has none), any other value its
    string form. *)
Definition fragment_text (item : PyVal) : string :=
  match item with
  | VDict d =>
      match dict_lookup "span" d with
      | Some (VStr s) => s
      | _ => EmptyString
      end
  | _ => py_str item
  end.

(** The span of a mapping fragment, when it has one, is a str. *)
Definition span_is_str (item : PyVal) : Prop :=
  forall d v, item = VDict d -> dict_lookup "span" d = Some v ->
  exists s, v = VStr s.

(** The context block for these selected texts: at most three of them,
    numbered from 1, each cut to its first 300 characters and followed
    by the ellipsis marker, with a blank line between two of them. *)
Definition context_of (selected : list string) : string :=
  str_join (nl ++ nl)
    (map (fun numbered : string * string =>
            let (i, doc) := numbered in
            "Document " ++ i ++ ": " ++ str_prefix 300 doc ++ "...")
       (combine ["1"; "2"; "3"] selected)).

(** The text stored for one rerank read. *)
Definition reranked_text_of (read : Z * PyVal * string) : string :=
  let '(_, _, doc) := read in str_prefix 300 doc ++ ellipsis.

(* ------------------------------------------------------------------ *)
(** ** Sample responses                                                 *)
(* ------------------------------------------------------------------ *)

(** 310 characters. *)
Definition long_text : string :=
  String.concat EmptyString (repeat "0123456789" 31).

Definition sample_hit (text : string) (score : string) : PyVal :=
  VDict [("content", VDict [("text", VList [VDict [("span", VStr text)]])]);
         ("scoreValue", VFloat score)].

Definition sample_kb_response : PyVal :=
  VDict [("retrievalResults",
          VList [sample_hit long_text "0.71";
                 sample_hit "net sales grew in 2023" "0.64"])].

Definition sample_reranked : PyVal :=
  VDict [("results",
          VList [VDict [("index", VInt 1); ("relevanceScore", VFloat "0.93")];
                 VDict [("index", VInt 0); ("relevanceScore", VFloat "0.12")]])].

Definition sample_documents : list string :=
  [long_text; "net sales grew in 2023"].

Definition sample_answer : PyVal :=
  VDict [("content", VList [VDict [("text", VStr "Sales grew.")]])].

Definition sample_client : Client :=
  fun c =>
    match c with
    | Retrieve _ _ _ => Ok sample_kb_response
    | Rerank _ _ _ _ => Ok sample_reranked
    | InvokeModel _ _ _ => Ok sample_answer
    end.



Definition one_hit_response : PyVal :=
  VDict [("retrievalResults",
          VList [sample_hit "net sales grew in 2023" "0.64"])].

(** A rerank service that answers with these entries, behind a
    retrieve service that found one hit. *)
Definition one_hit_client (entries : list PyVal) : Client :=
  fun c =>
    match c with
    | Retrieve _ _ _ => Ok one_hit_response
    | Rerank _ _ _ _ => Ok (VDict [("results", VList entries)])
    | InvokeModel _ _ _ => Ok sample_answer
    end.

Definition sample_query : PyVal :=
  VStr "Compare the results between 2022 and 2023".

Definition sample_arn : PyVal :=
  VStr "arn:aws:bedrock:us-west-2::foundation-model/cohere.rerank-v3-5:0".

(* ------------------------------------------------------------------ *)
(** ** The size invariants of a pipeline result                         *)
(* ------------------------------------------------------------------ *)



(* ------------------------------------------------------------------ *)
(** ** The notebook's cells around the two functions                    *)
(* ------------------------------------------------------------------ *)

(** Cell 2, the configuration, as a function of the loaded [variables]:
[[
  regionName = variables['regionName']
  accountNumber = variables['accountNumber']
  knowledge_base_id = variables['kbFixedChunk']
  model_id = 'us.amazon.nova-pro-v1:0'
  model_arn = f"arn:aws:bedrock:us-west-2:{accountNumber}:inference-profile/{model_id}"
  rerank_model_arn = f"arn:aws:bedrock:us-west-2::foundation-model/cohere.rerank-v3-5:0"
]] *)
Module Setup.

Record Globals : Type := {
  regionName : PyVal;
  accountNumber : PyVal;
  knowledge_base_id : PyVal;
  model_id : string;
  model_arn : string;
  rerank_model_arn : string
}.

Definition run (variables : PyVal) : outcome Globals :=
  (region <- py_getitem "regionName" variables ;;
   account <- py_getitem "accountNumber" variables ;;
   kb <- py_getitem "kbFixedChunk" variables ;;
   let model := "us.amazon.nova-pro-v1:0" in
   Ok {| regionName := region;
         accountNumber := account;
         knowledge_base_id := kb;
         model_id := model;
         model_arn := "arn:aws:bedrock:us-west-2:" ++ py_str account
                      ++ ":inference-profile/" ++ model;
         rerank_model_arn :=
           "arn:aws:bedrock:us-west-2::foundation-model/cohere.rerank-v3-5:0"
      |})%res.

End Setup.

(** A cell runs against the services and the notebook's output: the
    calls made so far and the pieces of text written so far. *)
Definition World : Type := (list Call * list string)%type.

Definition Cell (A : Type) : Type := World -> outcome A * World.

Definition cret {A} (a : A) : Cell A := fun w => (Ok a, w).

Definition cbind {A B} (c : Cell A) (k : A -> Cell B) : Cell B :=
  fun w =>
    match c w with
    | (Ok a, w') => k a w'
    | (Raise e, w') => (Raise e, w')
    end.

(** A call of one of the two functions from a cell. *)
Definition run_calls {A} (m : M A) : Cell A :=
  fun w => let (r, log) := m (fst w) in (r, (log, snd w)).

Definition clift {A} (r : outcome A) : Cell A := fun w => (r, w).

(** [print(s)]: the text and the newline that ends it. *)
Definition print (s : string) : Cell unit :=
  fun w => (Ok tt, (fst w, (snd w ++ [(s ++ nl)%string])%list)).

Declare Scope cell_scope.
Delimit Scope cell_scope with cell.
Notation "x <- c ;; k" := (cbind c (fun x => k))
  (at level 61, c at next level, right associativity) : cell_scope.
Notation "c1 ;;; c2" := (cbind c1 (fun _ => c2))
  (at level 61, right associativity) : cell_scope.

Module Compare.

(** [query], set by the first cell of section 6. *)
Definition query : PyVal := VStr "Compare the results between 2022 and 2023".

(** The loop of the first cell of section 6:
[[
  for doc in ...:
      print(f"Position {doc['position']} (Score: {doc['score']}):")
      print(f"{doc['text']}\n")
]] *)
Fixpoint show_original (docs : list PyVal) : Cell unit :=
  match docs with
  | [] => cret tt
  | doc :: rest =>
      (position <- clift (py_getitem "position" doc) ;;
       score <- clift (py_getitem "score" doc) ;;
       print ("Position " ++ py_str position
              ++ " (Score: " ++ py_str score ++ "):") ;;;
       text <- clift (py_getitem "text" doc) ;;
       print (py_str text ++ nl) ;;;
       show_original rest)%cell
  end.

(** The loop of the second cell of section 6:
[[
  for doc in ...:
      print(f"Moved from position {doc['original_position']} to {doc['new_position']}")
      print(f"Relevance score: {doc['relevance_score']}")
      print(f"{doc['text']}\n")
]] *)
Fixpoint show_reranked (docs : list PyVal) : Cell unit :=
  match docs with
  | [] => cret tt
  | doc :: rest =>
      (original_position <- clift (py_getitem "original_position" doc) ;;
       new_position <- clift (py_getitem "new_position" doc) ;;
       print ("Moved from position " ++ py_str original_position
              ++ " to " ++ py_str new_position) ;;;
       relevance_score <- clift (py_getitem "relevance_score" doc) ;;
       print ("Relevance score: " ++ py_str relevance_score) ;;;
       text <- clift (py_getitem "text" doc) ;;
       print (py_str text ++ nl) ;;;
       show_reranked rest)%cell
  end.

(** [results[key][:3]], the documents a display loop goes through. *)
Definition top3 (key : string) (results : PyVal) : outcome (list PyVal) :=
  (found <- py_getitem key results ;;
   cut <- py_slice_to 3 found ;;
   py_iter cut)%res.

Section Cells.

Variable client : Client.
Variable globals : Setup.Globals.

Let knowledge_base_id : PyVal := Setup.knowledge_base_id globals.
Let rerank_model_arn : PyVal := VStr (Setup.rerank_model_arn globals).

(** Section 6, first cell. *)
Definition without_reranking : Cell unit :=
  (print "WITHOUT RERANKING:" ;;;
   results_no_rerank <- run_calls (search_kb_with_optional_rerank client
                          query knowledge_base_id rerank_model_arn
                          (VBool false)) ;;
   print (nl ++ "TOP 3 DOCUMENTS WITHOUT RERANKING:") ;;;
   docs <- clift (top3 "original_results" results_no_rerank) ;;
   show_original docs)%cell.

(** Section 6, second cell. *)
Definition with_reranking : Cell unit :=
  (print (nl ++ "WITH RERANKING:") ;;;
   results_with_rerank <- run_calls (search_kb_with_optional_rerank client
                            query knowledge_base_id rerank_model_arn
                            (VBool true)) ;;
   print (nl ++ "TOP 3 DOCUMENTS AFTER RERANKING:") ;;;
   docs <- clift (top3 "reranked_results" results_with_rerank) ;;
   show_reranked docs)%cell.




End Cells.

End Compare.

(** The lines the first display loop writes for these entries, numbered
    by [labels]. *)
Definition original_lines (scores : list PyVal) (texts : list string)
  : list string :=
  flat_map (fun entry : string * (PyVal * string) =>
              let '(position, (score, text)) := entry in
              ["Position " ++ position ++ " (Score: " ++ py_str score ++ "):"
               ++ nl;
               truncate_text text ++ nl ++ nl])
    (combine ["1"; "2"; "3"] (combine scores texts)).

(** The loaded variables of a sample configuration file. *)
Definition sample_variables : PyVal :=
  VDict [("accountNumber", VStr "123456789012");
         ("regionName", VStr "us-west-2");
         ("kbFixedChunk", VStr "KB1")].

(** The document of a rerank read. *)
Definition read_document (read : Z * PyVal * string) : string :=
  let '(_, _, doc) := read in doc.

(** A stored text of at most 303 characters. *)
Definition text_within_303 (doc : PyVal) : Prop :=
  exists text, py_getitem "text" doc = Ok (VStr text)
               /\ (String.length text <= 303)%nat.

(** The lines the second display loop writes for these reads. *)
Definition reranked_lines (reads : list (Z * PyVal * string)) : list string :=
  flat_map (fun entry : string * (Z * PyVal * string) =>
              let '(new_position, (idx, score, doc)) := entry in
              ["Moved from position " ++ str_of_int (idx + 1) ++ " to "
               ++ new_position ++ nl;
               "Relevance score: " ++ py_str score ++ nl;
               (str_prefix 300 doc ++ "...") ++ nl ++ nl])
    (combine ["1"; "2"; "3"] reads).

(** The globals the configuration cell sets from [sample_variables]. *)
Definition sample_globals : Setup.Globals :=
  {| Setup.regionName := VStr "us-west-2";
     Setup.accountNumber := VStr "123456789012";
     Setup.knowledge_base_id := VStr "KB1";
     Setup.model_id := "us.amazon.nova-pro-v1:0";
     Setup.model_arn :=
       "arn:aws:bedrock:us-west-2:123456789012:inference-profile/us.amazon.nova-pro-v1:0";
     Setup.rerank_model_arn :=
       "arn:aws:bedrock:us-west-2::foundation-model/cohere.rerank-v3-5:0" |}.

(* ------------------------------------------------------------------ *)
(** ** Strings: prefixes                                                *)
(* ------------------------------------------------------------------ *)

Lemma str_app_assoc (s t u : string) : (s ++ t) ++ u = s ++ t ++ u.
Proof.
  induction s as [|c s IH]; simpl; [reflexivity | rewrite IH; reflexivity].
Qed.

Lemma str_prefix_short (n : nat) (s : string) :
  (String.length s <= n)%nat -> str_prefix n s = s.
Proof.
  unfold str_prefix. revert n.
  induction s as [|c s IH]; intros [|n] H; simpl in *; try reflexivity; try lia.
  f_equal. apply IH. lia.
Qed.


Lemma str_prefix_length (n : nat) (s : string) :
  (n <= String.length s)%nat -> String.length (str_prefix n s) = n.
Proof.
  unfold str_prefix. revert n.
  induction s as [|c s IH]; intros [|n] H; simpl in *; try reflexivity; try lia.
  f_equal. apply IH. lia.
Qed.



(* ------------------------------------------------------------------ *)
(** ** The exception type                                               *)
(* ------------------------------------------------------------------ *)

Lemma rbind_ok {A B} (r : outcome A) (k : A -> outcome B) (b : B) :
  rbind r k = Ok b -> exists a, r = Ok a /\ k a = Ok b.
Proof.
  destruct r as [a|e]; simpl; intros H; [eauto | discriminate].
Qed.

Ltac rbind_inv H :=
  let a := fresh "a" in
  let Ha := fresh "Ha" in
  apply rbind_ok in H; destruct H as (a & Ha & H).

Lemma mapM_ok_length {A B} (f : A -> outcome B) (l : list A) (l' : list B) :
  mapM f l = Ok l' -> length l' = length l.
Proof.
  revert l'. induction l as [|x l IH]; simpl; intros l' H.
  - injection H as <-. reflexivity.
  - rbind_inv H. rbind_inv H. injection H as <-. simpl. f_equal. eauto.
Qed.

(* ------------------------------------------------------------------ *)
(** ** The retrieval loop                                               *)
(* ------------------------------------------------------------------ *)

Lemma retrieval_loop_inv (results : list PyVal) :
  forall i o d o' d',
    retrieval_loop i results o d = Ok (o', d') ->
    exists scores texts,
      Forall2 (fun hit text => extract_text hit = Ok text) results texts
      /\ Forall2 (fun hit score => py_get "scoreValue" (VInt 0) hit = Ok score)
           results scores
      /\ o' = (o ++ retrieved_entries i scores texts)%list
      /\ d' = (d ++ texts)%list.
Proof.
  induction results as [|hit rest IH]; simpl; intros i o d o' d' H.
  - injection H as <- <-. exists [], []. simpl.
    rewrite !app_nil_r. repeat split; constructor.
  - apply rbind_ok in H. destruct H as (text & Htext & H).
    apply rbind_ok in H. destruct H as (score & Hscore & H).
    apply IH in H. destruct H as (scores & texts & Ht & Hs & -> & ->).
    exists (score :: scores), (text :: texts). simpl.
    rewrite <- !app_assoc. simpl. repeat split; constructor; assumption.
Qed.

Lemma retrieval_loop_ok (results : list PyVal) :
  forall i o d scores texts,
    Forall2 (fun hit text => extract_text hit = Ok text) results texts ->
    Forall2 (fun hit score => py_get "scoreValue" (VInt 0) hit = Ok score)
      results scores ->
    retrieval_loop i results o d
    = Ok ((o ++ retrieved_entries i scores texts)%list, (d ++ texts)%list).
Proof.
  induction results as [|hit rest IH]; intros i o d scores texts Ht Hs;
    inversion Ht; inversion Hs; subst; simpl.
  - rewrite !app_nil_r. reflexivity.
  - match goal with
    | [ H1 : extract_text hit = _, H2 : py_get _ _ hit = _ |- _ ] =>
        rewrite H1; simpl; rewrite H2; simpl
    end.
    erewrite IH by eassumption. rewrite <- !app_assoc. reflexivity.
Qed.

Lemma retrieved_entries_length (scores : list PyVal) (texts : list string) :
  forall i, length scores = length texts ->
  length (retrieved_entries i scores texts) = length texts.
Proof.
  revert texts. induction scores as [|s scores IH]; intros [|t texts] i H;
    simpl in *; try reflexivity; try discriminate.
  f_equal. apply IH. lia.
Qed.


Lemma extract_documents_inv (kb_response : PyVal) (o : list PyVal)
    (d : list string) :
  extract_documents kb_response = Ok (o, d) ->
  exists hits scores,
    retrieval_hits kb_response = Ok hits
    /\ Forall2 (fun hit text => extract_text hit = Ok text) hits d
    /\ Forall2 (fun hit score => py_get "scoreValue" (VInt 0) hit = Ok score)
         hits scores
    /\ o = retrieved_entries 0 scores d.
Proof.
  unfold extract_documents. intros H.
  apply rbind_ok in H. destruct H as (hits & Hhits & H).
  apply retrieval_loop_inv in H.
  destruct H as (scores & texts & Ht & Hs & -> & ->).
  exists hits, scores. simpl. auto.
Qed.

(* ------------------------------------------------------------------ *)
(** ** The rerank loop                                                  *)
(* ------------------------------------------------------------------ *)

Section RerankLoop.

Variable documents : list string.

Lemma rerank_loop_inv (results : list PyVal) :
  forall acc l,
    rerank_loop documents results acc = Ok l ->
    exists reads,
      Forall2 (entry_read documents) results reads
      /\ l = (acc ++ reranked_from (length acc) reads)%list.
Proof.
  induction results as [|entry rest IH]; simpl; intros acc l H.
  - injection H as <-. exists []. rewrite app_nil_r. split; constructor.
  - apply rbind_ok in H. destruct H as (idx & Hidx & H).
    apply rbind_ok in H. destruct H as (score & Hscore & H).
    apply rbind_ok in H. destruct H as (doc & Hdoc & H).
    apply IH in H. destruct H as (reads & Hreads & ->).
    exists ((idx, score, doc) :: reads). split.
    + constructor; [repeat split; assumption | assumption].
    + rewrite <- app_assoc, length_app. simpl.
      replace (length acc + 1)%nat with (S (length acc)) by lia.
      reflexivity.
Qed.

Lemma rerank_loop_ok (results : list PyVal) :
  forall acc reads,
    Forall2 (entry_read documents) results reads ->
    rerank_loop documents results acc
    = Ok (acc ++ reranked_from (length acc) reads)%list.
Proof.
  induction results as [|entry rest IH]; intros acc reads H;
    inversion H as [|? [[idx score] doc] ? reads' (Hidx & Hscore & Hdoc) Hrest];
    subst; simpl.
  - rewrite app_nil_r. reflexivity.
  - rewrite Hidx; simpl. rewrite Hscore; simpl. rewrite Hdoc; simpl.
    rewrite (IH _ reads' Hrest).
    rewrite <- app_assoc, length_app. simpl.
    replace (length acc + 1)%nat with (S (length acc)) by lia.
    reflexivity.
Qed.

End RerankLoop.

Lemma reranked_from_length (reads : list (Z * PyVal * string)) :
  forall n, length (reranked_from n reads) = length reads.
Proof.
  induction reads as [|[[idx score] doc] reads IH]; intros n; simpl;
    [reflexivity | f_equal; apply IH].
Qed.




Lemma Forall2_same_length {A B} (R : A -> B -> Prop) (l : list A)
    (l' : list B) :
  Forall2 R l l' -> length l = length l'.
Proof.
  induction 1; simpl; congruence.
Qed.

Lemma process_reranked_inv (documents : list string) (reranked : PyVal)
    (l : list PyVal) :
  process_reranked documents reranked = Ok l ->
  exists entries reads,
    reranked_entries reranked = Ok entries
    /\ Forall2 (entry_read documents) entries reads
    /\ l = reranked_from 0 reads.
Proof.
  unfold process_reranked. intros H.
  apply rbind_ok in H. destruct H as (entries & Hentries & H).
  apply rerank_loop_inv in H. destruct H as (reads & Hreads & ->).
  exists entries, reads. auto.
Qed.


Lemma entry_index_absent (d : list (string * PyVal)) :
  dict_lookup "index" d = None -> entry_index (VDict d) = Ok 0.
Proof.
  intros H. unfold entry_index. simpl. rewrite H. reflexivity.
Qed.

(* ------------------------------------------------------------------ *)
(** ** Text extraction                                                  *)
(* ------------------------------------------------------------------ *)

Lemma py_join_strs (sep : string) (l : list string) :
  py_join sep (map VStr l) = Ok (str_join sep l).
Proof.
  unfold py_join.
  assert (H : all_str (map VStr l) = Ok l).
  { induction l as [|x l IH]; simpl; [reflexivity | rewrite IH; reflexivity]. }
  rewrite H. reflexivity.
Qed.

Lemma fragment_fragment_text (item : PyVal) :
  span_is_str item -> fragment item = Ok (VStr (fragment_text item)).
Proof.
  intros Hspan. destruct item as [| b | z | r | s | l | d]; try reflexivity.
  simpl. destruct (dict_lookup "span" d) as [v|] eqn:E; [|reflexivity].
  destruct (Hspan d v eq_refl E) as [s ->]. reflexivity.
Qed.

Lemma mapM_fragment (items : list PyVal) :
  Forall span_is_str items ->
  mapM fragment items = Ok (map VStr (map fragment_text items)).
Proof.
  induction 1 as [|item items Hitem _ IH]; simpl.
  - reflexivity.
  - rewrite (fragment_fragment_text item Hitem). simpl. rewrite IH. reflexivity.
Qed.

(** C8: for a retrieval hit whose [content.text] is a list of
    fragments (the span of a mapping fragment being a str when it is
    there), the extracted document text is the fragments joined with
    single spaces, where a mapping fragment contributes its span and any
    other fragment its string form [str(item)]. *)
Theorem C8_extract_text_joins_fragments
    (hit content : list (string * PyVal)) (items : list PyVal) :
  dict_lookup "content" hit = Some (VDict content) ->
  dict_lookup "text" content = Some (VList items) ->
  Forall span_is_str items ->
  extract_text (VDict hit) = Ok (str_join " " (map fragment_text items)).
Proof.
  intros Hcontent Htext Hspans.
  unfold extract_text. simpl. unfold dict_has.
  rewrite Hcontent. simpl. unfold dict_has. rewrite Htext. simpl.
  rewrite (mapM_fragment items Hspans). simpl.
  apply py_join_strs.
Qed.

Lemma C8_witness :
  extract_text
    (VDict [("content",
             VDict [("text", VList [VDict [("span", VStr "net sales")];
                                    VStr "grew"; VInt 12])])])
  = Ok "net sales grew 12".
Proof.
  apply (C8_extract_text_joins_fragments
           [("content",
             VDict [("text", VList [VDict [("span", VStr "net sales")];
                                    VStr "grew"; VInt 12])])]
           [("text", VList [VDict [("span", VStr "net sales")];
                            VStr "grew"; VInt 12])]
           [VDict [("span", VStr "net sales")]; VStr "grew"; VInt 12]).
  - reflexivity.
  - reflexivity.
  - repeat constructor; intros d v Hd Hv; inversion Hd; subst;
      simpl in Hv; inversion Hv; eauto.
Defined.

(* ------------------------------------------------------------------ *)
(** ** Truncation in the retrieval path                                 *)
(* ------------------------------------------------------------------ *)



(* ------------------------------------------------------------------ *)
(** ** The reranked entries                                             *)
(* ------------------------------------------------------------------ *)



Lemma reranked_text (original_position new_position : Z) (score : PyVal)
    (text : string) :
  py_getitem "text"
    (RerankedDocument original_position new_position score text)
  = Ok (VStr text).
Proof. reflexivity. Qed.




(* ------------------------------------------------------------------ *)
(** ** The lookup [documents[idx]]                                      *)
(* ------------------------------------------------------------------ *)

Lemma list_getitem_in_range {A} (l : list A) (z : Z) :
  0 <= z < Z.of_nat (length l) ->
  exists x, list_getitem l z = Ok x /\ nth_error l (Z.to_nat z) = Some x.
Proof.
  intros Hz. unfold list_getitem.
  destruct (Z.ltb_spec z 0) as [Hneg|_]; [lia|].
  destruct (Z.ltb_spec z 0) as [Hneg|_]; [lia|].
  destruct (Z.leb_spec (Z.of_nat (length l)) z) as [Hbig|_]; [lia|]. simpl.
  destruct (nth_error l (Z.to_nat z)) as [x|] eqn:E; [eauto|].
  apply nth_error_None in E. lia.
Qed.

Lemma list_getitem_too_large {A} (l : list A) (z : Z) :
  Z.of_nat (length l) <= z -> list_getitem l z = Raise IndexError.
Proof.
  intros Hz. unfold list_getitem.
  destruct (Z.ltb_spec z 0) as [Hneg|_]; [lia|].
  destruct (Z.ltb_spec z 0) as [Hneg|_]; [lia|].
  destruct (Z.leb_spec (Z.of_nat (length l)) z) as [_|Hsmall]; [|lia].
  reflexivity.
Qed.

Lemma entry_index_dict (entry : PyVal) (idx : Z) :
  entry_index entry = Ok idx -> exists d, entry = VDict d.
Proof.
  destruct entry; try discriminate. eauto.
Qed.

Lemma py_get_dict (k : string) (default : PyVal) (d : list (string * PyVal)) :
  exists v, py_get k default (VDict d) = Ok v.
Proof.
  simpl. destruct (dict_lookup k d); eauto.
Qed.

Lemma valid_entries_read (documents : list string) (entries : list PyVal) :
  Forall (fun entry =>
            exists idx, entry_index entry = Ok idx
                        /\ 0 <= idx < Z.of_nat (length documents)) entries ->
  exists reads, Forall2 (entry_read documents) entries reads.
Proof.
  induction 1 as [|entry entries (idx & Hidx & Hrange) _ (reads & IH)].
  - exists []. constructor.
  - destruct (entry_index_dict entry idx Hidx) as [d ->].
    destruct (py_get_dict "relevanceScore" (VInt 0) d) as [score Hscore].
    destruct (list_getitem_in_range documents idx Hrange) as (doc & Hdoc & _).
    exists ((idx, score, doc) :: reads).
    constructor; [repeat split; assumption | exact IH].
Qed.

Lemma rerank_loop_raises (documents : list string) (entries : list PyVal) :
  Exists (fun entry =>
            exists idx, entry_index entry = Ok idx
                        /\ Z.of_nat (length documents) <= idx) entries ->
  forall acc, exists e, rerank_loop documents entries acc = Raise e.
Proof.
  induction 1 as [entry entries (idx & Hidx & Hbig) | entry entries _ IH];
    intros acc; cbn [rerank_loop].
  - rewrite Hidx. cbn [rbind].
    destruct (entry_index_dict entry idx Hidx) as [d ->].
    destruct (py_get_dict "relevanceScore" (VInt 0) d) as [score ->].
    cbn [rbind]. rewrite (list_getitem_too_large documents idx Hbig).
    cbn [rbind]. eauto.
  - destruct (entry_index entry) as [idx|e]; cbn [rbind]; [|eauto].
    destruct (py_get "relevanceScore" (VInt 0) entry) as [score|e];
      cbn [rbind]; [|eauto].
    destruct (list_getitem documents idx) as [doc|e]; cbn [rbind]; [|eauto].
    apply IH.
Qed.

(** C10: when every index of the rerank response (0 where the field is
    absent) is a 0-based index into the submitted documents, each
    lookup [documents[idx]] finds the document at that place and the
    mapping returns; when some returned index is greater than or equal
    to the number of submitted documents, the mapping fails. *)
Theorem C10_document_lookup (documents : list string) (reranked : PyVal)
    (entries : list PyVal) :
  reranked_entries reranked = Ok entries ->
  (Forall (fun entry =>
             exists idx, entry_index entry = Ok idx
                         /\ 0 <= idx < Z.of_nat (length documents)) entries ->
   (forall entry, In entry entries ->
      exists idx doc,
        entry_index entry = Ok idx
        /\ list_getitem documents idx = Ok doc
        /\ nth_error documents (Z.to_nat idx) = Some doc)
   /\ exists reranked_results,
        process_reranked documents reranked = Ok reranked_results
        /\ length reranked_results = length entries)
  /\ (Exists (fun entry =>
                exists idx, entry_index entry = Ok idx
                            /\ Z.of_nat (length documents) <= idx) entries ->
      exists e, process_reranked documents reranked = Raise e).
Proof.
  intros Hentries. split.
  - intros Hvalid. split.
    + intros entry Hin. rewrite Forall_forall in Hvalid.
      destruct (Hvalid entry Hin) as (idx & Hidx & Hrange).
      destruct (list_getitem_in_range documents idx Hrange)
        as (doc & Hdoc & Hnth).
      exists idx, doc. auto.
    + destruct (valid_entries_read documents entries Hvalid) as [reads Hreads].
      exists (reranked_from 0 reads). split.
      * unfold process_reranked. rewrite Hentries. cbn [rbind].
        apply (rerank_loop_ok documents entries [] reads Hreads).
      * rewrite reranked_from_length. symmetry.
        exact (Forall2_same_length _ _ _ Hreads).
  - intros Hbad. unfold process_reranked. rewrite Hentries. cbn [rbind].
    apply rerank_loop_raises. exact Hbad.
Qed.

Lemma C10_witness :
  exists reranked_results,
    process_reranked sample_documents sample_reranked = Ok reranked_results
    /\ length reranked_results = 2%nat.
Proof.
  destruct (C10_document_lookup sample_documents sample_reranked
              [VDict [("index", VInt 1); ("relevanceScore", VFloat "0.93")];
               VDict [("index", VInt 0); ("relevanceScore", VFloat "0.12")]])
    as [Hvalid _].
  - reflexivity.
  - destruct Hvalid as (_ & l & Hrun & Hlen).
    + repeat constructor.
      * exists 1. split; [reflexivity | simpl; lia].
      * exists 0. split; [reflexivity | simpl; lia].
    + exists l. split; [exact Hrun | exact Hlen].
Defined.

(* ------------------------------------------------------------------ *)
(** ** Runs of [search_kb_with_optional_rerank]                         *)
(* ------------------------------------------------------------------ *)

Section Runs.

Variable client : Client.
Variables query kb_id model_arn use_reranking : PyVal.

Let search := search_kb_with_optional_rerank client query kb_id model_arn
                use_reranking.

(** The run of the function, step by step. *)
Lemma search_run (log0 : list Call) :
  search log0
  = let log1 := (log0 ++ [Retrieve kb_id query 5])%list in
    match client (Retrieve kb_id query 5) with
    | Raise e => (Raise e, log1)
    | Ok kb_response =>
        match extract_documents kb_response with
        | Raise e => (Raise e, log1)
        | Ok (original_results, documents) =>
            if rerank_enabled use_reranking model_arn documents
            then
              let log2 := (log1 ++ [Rerank query model_arn 5 documents])%list in
              match client (Rerank query model_arn 5 documents) with
              | Raise e => (Raise e, log2)
              | Ok reranked =>
                  match process_reranked documents reranked with
                  | Raise e => (Raise e, log2)
                  | Ok reranked_results =>
                      (Ok (VDict [("original_results", VList original_results);
                                  ("reranked_results", VList reranked_results)]),
                       log2)
                  end
              end
            else (Ok (VDict [("original_results", VList original_results)]),
                  log1)
        end
    end.
Proof.
  unfold search, search_kb_with_optional_rerank, mbind, call, lift, mret.
  destruct (client (Retrieve kb_id query 5)) as [kb_response|e];
    [|reflexivity].
  destruct (extract_documents kb_response) as [[o d]|e]; [|reflexivity].
  destruct (rerank_enabled use_reranking model_arn d); [|reflexivity].
  cbv zeta.
  destruct (client (Rerank query model_arn 5 d)) as [reranked|e];
    [|reflexivity].
  destruct (process_reranked d reranked) as [rr|e]; reflexivity.
Qed.

(** What a run that returns went through. *)
Lemma search_inv (results : PyVal) (log : list Call) :
  search [] = (Ok results, log) ->
  exists kb_response original_results documents,
    client (Retrieve kb_id query 5) = Ok kb_response
    /\ extract_documents kb_response = Ok (original_results, documents)
    /\ ((rerank_enabled use_reranking model_arn documents = false
         /\ results = VDict [("original_results", VList original_results)]
         /\ log = [Retrieve kb_id query 5])
        \/ (rerank_enabled use_reranking model_arn documents = true
            /\ exists reranked reranked_results,
                client (Rerank query model_arn 5 documents) = Ok reranked
                /\ process_reranked documents reranked = Ok reranked_results
                /\ results
                   = VDict [("original_results", VList original_results);
                            ("reranked_results", VList reranked_results)]
                /\ log = [Retrieve kb_id query 5;
                          Rerank query model_arn 5 documents])).
Proof.
  rewrite search_run. cbv zeta.
  destruct (client (Retrieve kb_id query 5)) as [kb_response|e] eqn:Hkb;
    [|discriminate].
  destruct (extract_documents kb_response) as [[o d]|e] eqn:Hdocs;
    [|discriminate].
  destruct (rerank_enabled use_reranking model_arn d) eqn:Hen.
  - destruct (client (Rerank query model_arn 5 d)) as [reranked|e] eqn:Hcall;
      [|discriminate].
    destruct (process_reranked d reranked) as [rr|e] eqn:Hproc;
      [|discriminate].
    intros H. injection H as <- <-.
    exists kb_response, o, d.
    do 2 (split; [first [assumption | reflexivity]|]).
    right. split; [exact Hen|].
    exists reranked, rr. auto.
  - intros H. injection H as <- <-.
    exists kb_response, o, d.
    do 2 (split; [first [assumption | reflexivity]|]).
    left. auto.
Qed.

End Runs.

(* ------------------------------------------------------------------ *)
(** ** When no rerank call is made                                      *)
(* ------------------------------------------------------------------ *)

(** C5: when the list of extracted documents is empty, whatever
    [use_reranking] is (True in particular), the function makes the
    retrieve call only, no rerank call, and returns a result with the
    [original_results] key and without the [reranked_results] key. *)
Theorem C5_no_documents_no_rerank (client : Client)
    (query kb_id model_arn use_reranking kb_response : PyVal)
    (original_results : list PyVal) :
  client (Retrieve kb_id query 5) = Ok kb_response ->
  extract_documents kb_response = Ok (original_results, []) ->
  exists results log,
    search_kb_with_optional_rerank client query kb_id model_arn
      use_reranking [] = (Ok results, log)
    /\ log = [Retrieve kb_id query 5]
    /\ existsb is_rerank log = false
    /\ py_contains "original_results" results = Ok true
    /\ py_contains "reranked_results" results = Ok false
    /\ py_getitem "original_results" results = Ok (VList original_results).
Proof.
  intros Hkb Hdocs.
  exists (VDict [("original_results", VList original_results)]),
         [Retrieve kb_id query 5].
  split; [|repeat split].
  rewrite search_run. cbv zeta. rewrite Hkb, Hdocs.
  unfold rerank_enabled. rewrite andb_false_r. reflexivity.
Qed.

Lemma C5_witness :
  exists results log,
    search_kb_with_optional_rerank
      (fun _ => Ok (VDict [("retrievalResults", VList [])]))
      sample_query (VStr "KB1")
      sample_arn
      (VBool true) [] = (Ok results, log)
    /\ existsb is_rerank log = false
    /\ py_contains "reranked_results" results = Ok false.
Proof.
  destruct (C5_no_documents_no_rerank
              (fun _ => Ok (VDict [("retrievalResults", VList [])]))
              sample_query (VStr "KB1")
              sample_arn
              (VBool true) (VDict [("retrievalResults", VList [])]) [])
    as (results & log & Hrun & _ & Hlog & _ & Hkey & _).
  - reflexivity.
  - reflexivity.
  - exists results, log. auto.
Defined.

(** C9: when [model_arn] is None or any other false value, the function
    makes no rerank call and a result it returns has no
    [reranked_results] key, also when [use_reranking] is True and
    documents were extracted; with a retrieve response from which the
    documents are extracted it returns the original results alone. *)
Theorem C9_no_model_arn_no_rerank (client : Client)
    (query kb_id model_arn use_reranking : PyVal) :
  truthy model_arn = false ->
  let run := search_kb_with_optional_rerank client query kb_id model_arn
               use_reranking [] in
  snd run = [Retrieve kb_id query 5]
  /\ existsb is_rerank (snd run) = false
  /\ (forall results, fst run = Ok results ->
       py_contains "reranked_results" results = Ok false)
  /\ (forall kb_response original_results documents,
       client (Retrieve kb_id query 5) = Ok kb_response ->
       extract_documents kb_response = Ok (original_results, documents) ->
       fst run = Ok (VDict [("original_results", VList original_results)])).
Proof.
  intros Harn run.
  assert (Hoff : forall d, rerank_enabled use_reranking model_arn d = false).
  { intros d. unfold rerank_enabled. rewrite Harn, andb_false_r. reflexivity. }
  assert (Hrun : run
                 = match client (Retrieve kb_id query 5) with
                   | Raise e => (Raise e, [Retrieve kb_id query 5])
                   | Ok kb_response =>
                       match extract_documents kb_response with
                       | Raise e => (Raise e, [Retrieve kb_id query 5])
                       | Ok (o, _) =>
                           (Ok (VDict [("original_results", VList o)]),
                            [Retrieve kb_id query 5])
                       end
                   end).
  { unfold run. rewrite search_run. cbv zeta.
    destruct (client (Retrieve kb_id query 5)) as [kb_response|e];
      [|reflexivity].
    destruct (extract_documents kb_response) as [[o d]|e]; [|reflexivity].
    rewrite Hoff. reflexivity. }
  rewrite Hrun. clear Hrun.
  destruct (client (Retrieve kb_id query 5)) as [kb_response|e].
  - destruct (extract_documents kb_response) as [[o d]|e] eqn:Hdocs; cbn [fst snd].
    + repeat split.
      * intros results H. injection H as <-. reflexivity.
      * intros kb' o' d' Hkb' Hdocs'. injection Hkb' as <-.
        rewrite Hdocs in Hdocs'. injection Hdocs' as <- <-. reflexivity.
    + repeat split; [discriminate|].
      intros kb' o' d' Hkb' Hdocs'. injection Hkb' as <-. congruence.
  - cbn [fst snd]. repeat split; [discriminate|].
    intros kb' o' d' Hkb' _. discriminate.
Qed.

Lemma C9_witness :
  let run := search_kb_with_optional_rerank sample_client
               sample_query (VStr "KB1")
               VNone (VBool true) [] in
  existsb is_rerank (snd run) = false
  /\ exists original_results,
       fst run = Ok (VDict [("original_results", VList original_results)])
       /\ length original_results = 2%nat.
Proof.
  intros run.
  destruct (C9_no_model_arn_no_rerank sample_client
              sample_query (VStr "KB1")
              VNone (VBool true) eq_refl)
    as (_ & Hlog & _ & Hret).
  split; [exact Hlog|].
  eexists. split.
  - apply (Hret sample_kb_response _ sample_documents); [reflexivity|].
    vm_compute. reflexivity.
  - reflexivity.
Defined.

(* ------------------------------------------------------------------ *)
(** ** The selected documents and the prompt                            *)
(* ------------------------------------------------------------------ *)

Lemma retrieved_entries_doc_texts (scores : list PyVal) (texts : list string) :
  forall i, length scores = length texts ->
  mapM (py_getitem "text") (retrieved_entries i scores texts)
  = Ok (map VStr (map truncate_text texts)).
Proof.
  revert texts. induction scores as [|score scores IH]; intros [|text texts] i H;
    try discriminate; cbn [retrieved_entries mapM map].
  - reflexivity.
  - replace (py_getitem "text"
               (RetrievedDocument (Z.of_nat i + 1) score (truncate_text text)))
      with (Ok (VStr (truncate_text text))) by reflexivity.
    cbn [rbind]. rewrite IH by (simpl in H; lia). reflexivity.
Qed.

Lemma reranked_from_doc_texts (reads : list (Z * PyVal * string)) :
  forall n,
    mapM (py_getitem "text") (reranked_from n reads)
    = Ok (map VStr (map reranked_text_of reads)).
Proof.
  induction reads as [|[[idx score] doc] reads IH]; intros n;
    cbn [reranked_from mapM map].
  - reflexivity.
  - rewrite reranked_text. cbn [rbind]. rewrite IH. reflexivity.
Qed.

(** The context built from texts that are strs. *)
Lemma build_context_strs (selected : list string) :
  build_context (map VStr selected) = Ok (context_of selected).
Proof.
  destruct selected as [|a [|b [|c rest]]]; reflexivity.
Qed.

Lemma original_entries_texts (kb_response : PyVal)
    (original_results : list PyVal) (documents : list string) :
  extract_documents kb_response = Ok (original_results, documents) ->
  mapM (py_getitem "text") original_results
  = Ok (map VStr (map truncate_text documents)).
Proof.
  intros H. apply extract_documents_inv in H.
  destruct H as (hits & scores & _ & Ht & Hs & ->).
  apply retrieved_entries_doc_texts.
  apply Forall2_same_length in Ht. apply Forall2_same_length in Hs.
  congruence.
Qed.

Lemma reranked_entries_texts (documents : list string) (reranked : PyVal)
    (reranked_results : list PyVal) :
  process_reranked documents reranked = Ok reranked_results ->
  exists texts,
    mapM (py_getitem "text") reranked_results = Ok (map VStr texts).
Proof.
  intros H. apply process_reranked_inv in H.
  destruct H as (entries & reads & _ & _ & ->).
  exists (map reranked_text_of reads). apply reranked_from_doc_texts.
Qed.

Lemma rerank_enabled_truthy (use_reranking model_arn : PyVal)
    (documents : list string) :
  rerank_enabled use_reranking model_arn documents = true ->
  truthy use_reranking = true.
Proof.
  unfold rerank_enabled. intros H.
  apply andb_prop in H. destruct H as [H _].
  apply andb_prop in H. tauto.
Qed.

Section Generation.

Variable client : Client.
Variables query kb_id rerank_model_arn use_reranking : PyVal.

(** The run of [retrieve_and_generate] once the documents are chosen:
    one more call, with the prompt. *)
Lemma retrieve_and_generate_run (results : PyVal) (log : list Call)
    (docs : list PyVal) (source_type context : string) :
  search_kb_with_optional_rerank client query kb_id rerank_model_arn
    use_reranking [] = (Ok results, log) ->
  select_docs use_reranking results = Ok (docs, source_type) ->
  build_context docs = Ok context ->
  retrieve_and_generate client query kb_id rerank_model_arn use_reranking []
  = (rbind (client (InvokeModel model_id 500
                      (build_prompt query source_type context)))
       answer_text,
     (log ++ [InvokeModel model_id 500
                (build_prompt query source_type context)])%list).
Proof.
  intros Hsearch Hselect Hcontext.
  unfold retrieve_and_generate, mbind, lift, call.
  rewrite Hsearch, Hselect, Hcontext.
  destruct (client (InvokeModel model_id 500
                      (build_prompt query source_type context)));
    reflexivity.
Qed.

(** The choice made on a result of the search. *)
Lemma select_docs_of_search (results : PyVal) (log : list Call) :
  search_kb_with_optional_rerank client query kb_id rerank_model_arn
    use_reranking [] = (Ok results, log) ->
  exists original_results original_texts,
    py_getitem "original_results" results = Ok (VList original_results)
    /\ mapM (py_getitem "text") original_results
       = Ok (map VStr original_texts)
    /\ ((py_contains "reranked_results" results = Ok false
         /\ select_docs use_reranking results
            = Ok (map VStr original_texts, "vector search"))
        \/ (py_contains "reranked_results" results = Ok true
            /\ truthy use_reranking = true
            /\ exists reranked_results reranked_texts,
                py_getitem "reranked_results" results
                = Ok (VList reranked_results)
                /\ mapM (py_getitem "text") reranked_results
                   = Ok (map VStr reranked_texts)
                /\ select_docs use_reranking results
                   = Ok (map VStr reranked_texts, "reranked"))).
Proof.
  intros H. apply search_inv in H.
  destruct H as (kb_response & o & d & _ & Hdocs & Hcase).
  pose proof (original_entries_texts _ _ _ Hdocs) as Htexts.
  exists o, (map truncate_text d).
  destruct Hcase as [(_ & -> & _) | (Hen & reranked & rr & _ & Hproc & -> & _)].
  - split; [reflexivity|]. split; [exact Htexts|]. left.
    split; [reflexivity|].
    unfold select_docs, doc_texts.
    destruct (truthy use_reranking); cbn; rewrite Htexts; reflexivity.
  - split; [reflexivity|]. split; [exact Htexts|]. right.
    split; [reflexivity|].
    pose proof (rerank_enabled_truthy _ _ _ Hen) as Huse.
    split; [exact Huse|].
    destruct (reranked_entries_texts _ _ _ Hproc) as [texts Hrr].
    exists rr, texts. split; [reflexivity|]. split; [exact Hrr|].
    unfold select_docs, doc_texts. rewrite Huse. cbn. rewrite Hrr.
    reflexivity.
Qed.

End Generation.

(** C1: on every run, when [use_reranking] is False the documents
    chosen for the context are the texts of [original_results] and the
    label in the prompt is "vector search"; when [use_reranking] is True
    and the result has a [reranked_results] key they are the texts of
    [reranked_results] and the label is "reranked". *)
Theorem C1_selected_documents (client : Client)
    (query kb_id rerank_model_arn use_reranking results : PyVal)
    (log : list Call) :
  search_kb_with_optional_rerank client query kb_id rerank_model_arn
    use_reranking [] = (Ok results, log) ->
  (use_reranking = VBool false ->
   exists original_results texts context,
     py_getitem "original_results" results = Ok (VList original_results)
     /\ mapM (py_getitem "text") original_results = Ok texts
     /\ select_docs use_reranking results = Ok (texts, "vector search")
     /\ build_context texts = Ok context
     /\ snd (retrieve_and_generate client query kb_id rerank_model_arn
               use_reranking [])
        = (log ++ [InvokeModel model_id 500
                     (build_prompt query "vector search" context)])%list)
  /\ (use_reranking = VBool true ->
      py_contains "reranked_results" results = Ok true ->
      exists reranked_results texts context,
        py_getitem "reranked_results" results = Ok (VList reranked_results)
        /\ mapM (py_getitem "text") reranked_results = Ok texts
        /\ select_docs use_reranking results = Ok (texts, "reranked")
        /\ build_context texts = Ok context
        /\ snd (retrieve_and_generate client query kb_id rerank_model_arn
                  use_reranking [])
           = (log ++ [InvokeModel model_id 500
                        (build_prompt query "reranked" context)])%list).
Proof.
  intros Hsearch.
  destruct (select_docs_of_search _ _ _ _ _ _ _ Hsearch)
    as (o & otexts & Ho & Hotexts & Hcase).
  split.
  - intros Huse.
    destruct Hcase as [(_ & Hsel) | (_ & Htruthy & _)];
      [|rewrite Huse in Htruthy; discriminate].
    exists o, (map VStr otexts), (context_of otexts).
    pose proof (build_context_strs otexts) as Hctx.
    rewrite (retrieve_and_generate_run _ _ _ _ _ _ _ _ _ _ Hsearch Hsel Hctx).
    auto.
  - intros Huse Hkey.
    destruct Hcase as [(Hnokey & _) | (_ & _ & rr & rtexts & Hrr & Hrtexts & Hsel)];
      [congruence|].
    exists rr, (map VStr rtexts), (context_of rtexts).
    pose proof (build_context_strs rtexts) as Hctx.
    rewrite (retrieve_and_generate_run _ _ _ _ _ _ _ _ _ _ Hsearch Hsel Hctx).
    auto.
Qed.

Lemma C1_witness :
  exists results log reranked_results texts,
    search_kb_with_optional_rerank sample_client
      sample_query (VStr "KB1")
      sample_arn
      (VBool true) [] = (Ok results, log)
    /\ py_getitem "reranked_results" results = Ok (VList reranked_results)
    /\ select_docs (VBool true) results = Ok (texts, "reranked").
Proof.
  eexists. eexists.
  assert (Hsearch :
            search_kb_with_optional_rerank sample_client
              sample_query (VStr "KB1")
              sample_arn
              (VBool true) []
            = (Ok (VDict
                     [("original_results",
                       VList (retrieved_entries 0
                                [VFloat "0.71"; VFloat "0.64"]
                                sample_documents));
                      ("reranked_results",
                       VList (reranked_from 0
                                [(1, VFloat "0.93", "net sales grew in 2023");
                                 (0, VFloat "0.12", long_text)]))]),
               [Retrieve (VStr "KB1")
                  sample_query 5;
                Rerank sample_query
                  sample_arn
                  5 sample_documents]))
    by (vm_compute; reflexivity).
  destruct (C1_selected_documents _ _ _ _ _ _ _ Hsearch) as [_ Hreranked].
  destruct (Hreranked eq_refl eq_refl)
    as (rr & texts & context & Hrr & _ & Hsel & _).
  exists rr, texts. split; [exact Hsearch|]. split; assumption.
Defined.

(** C7: on every run the context is built from the first 3 selected
    documents only, the i-th written as "Document i: ", then the first
    300 characters of the document, then "...", with a blank line
    between two of them, and the prompt sent to the model is
    "Query: <query>\n\nContext from <source_type>:\n<context>\n\nAnswer:". *)
Theorem C7_prompt_format (client : Client)
    (query kb_id rerank_model_arn use_reranking results : PyVal)
    (log : list Call) :
  search_kb_with_optional_rerank client query kb_id rerank_model_arn
    use_reranking [] = (Ok results, log) ->
  (exists selected source_type,
     select_docs use_reranking results = Ok (map VStr selected, source_type)
     /\ build_context (map VStr selected) = Ok (context_of selected)
     /\ snd (retrieve_and_generate client query kb_id rerank_model_arn
               use_reranking [])
        = (log ++ [InvokeModel model_id 500
                     ("Query: " ++ py_str query ++ nl ++ nl
                      ++ "Context from " ++ source_type ++ ":" ++ nl
                      ++ context_of selected ++ nl ++ nl ++ "Answer:")])%list)
  /\ (forall a b c rest,
        context_of (a :: b :: c :: rest)
        = "Document 1: " ++ str_prefix 300 a ++ "..." ++ nl ++ nl
          ++ "Document 2: " ++ str_prefix 300 b ++ "..." ++ nl ++ nl
          ++ "Document 3: " ++ str_prefix 300 c ++ "...")
  /\ (forall a b,
        context_of [a; b]
        = "Document 1: " ++ str_prefix 300 a ++ "..." ++ nl ++ nl
          ++ "Document 2: " ++ str_prefix 300 b ++ "...")
  /\ (forall a, context_of [a] = "Document 1: " ++ str_prefix 300 a ++ "...")
  /\ context_of [] = EmptyString.
Proof.
  intros Hsearch.
  split; [|split; [|split; [|split]]];
    try (intros; unfold context_of, str_join;
         cbn [combine map String.concat];
         rewrite ?str_app_assoc; reflexivity).
  destruct (select_docs_of_search _ _ _ _ _ _ _ Hsearch)
    as (o & otexts & _ & _ & Hcase).
  destruct Hcase as [(_ & Hsel) | (_ & _ & rr & rtexts & _ & _ & Hsel)].
  - exists otexts, "vector search".
    pose proof (build_context_strs otexts) as Hctx.
    rewrite (retrieve_and_generate_run _ _ _ _ _ _ _ _ _ _ Hsearch Hsel Hctx).
    auto.
  - exists rtexts, "reranked".
    pose proof (build_context_strs rtexts) as Hctx.
    rewrite (retrieve_and_generate_run _ _ _ _ _ _ _ _ _ _ Hsearch Hsel Hctx).
    auto.
Qed.

Lemma C7_witness :
  exists results log selected source_type,
    search_kb_with_optional_rerank sample_client
      sample_query (VStr "KB1")
      VNone (VBool false) [] = (Ok results, log)
    /\ select_docs (VBool false) results = Ok (map VStr selected, source_type)
    /\ build_context (map VStr selected) = Ok (context_of selected).
Proof.
  eexists. eexists.
  assert (Hsearch :
            search_kb_with_optional_rerank sample_client
              sample_query (VStr "KB1")
              VNone (VBool false) []
            = (Ok (VDict
                     [("original_results",
                       VList (retrieved_entries 0
                                [VFloat "0.71"; VFloat "0.64"]
                                sample_documents))]),
               [Retrieve (VStr "KB1")
                  sample_query 5]))
    by (vm_compute; reflexivity).
  destruct (C7_prompt_format _ _ _ _ _ _ _ Hsearch)
    as ((selected & source_type & Hsel & Hctx & _) & _).
  exists selected, source_type. split; [exact Hsearch|]. split; assumption.
Defined.

(* ------------------------------------------------------------------ *)
(** ** The size invariants                                              *)
(* ------------------------------------------------------------------ *)






(* ------------------------------------------------------------------ *)
(** ** Runs on concrete responses                                       *)
(* ------------------------------------------------------------------ *)

(** A rerank response with more entries than documents were submitted
    gives a [reranked_results] longer than [original_results]. *)
Example reranked_longer_than_original :
  fst (search_kb_with_optional_rerank
         (one_hit_client [VDict [("index", VInt 0)]; VDict [("index", VInt 0)]])
         sample_query (VStr "KB1") sample_arn (VBool true) [])
  = Ok (VDict
          [("original_results",
            VList [RetrievedDocument 1 (VFloat "0.64") "net sales grew in 2023"]);
           ("reranked_results",
            VList [RerankedDocument 1 1 (VInt 0) "net sales grew in 2023...";
                   RerankedDocument 1 2 (VInt 0) "net sales grew in 2023..."])]).
Proof. vm_compute. reflexivity. Qed.

(** A negative index is accepted by [documents[idx]], which counts it
    from the end, and gives an [original_position] below 1. *)
Example negative_index_position :
  fst (search_kb_with_optional_rerank
         (one_hit_client [VDict [("index", VInt (-1))]])
         sample_query (VStr "KB1") sample_arn (VBool true) [])
  = Ok (VDict
          [("original_results",
            VList [RetrievedDocument 1 (VFloat "0.64") "net sales grew in 2023"]);
           ("reranked_results",
            VList [RerankedDocument 0 1 (VInt 0) "net sales grew in 2023..."])]).
Proof. vm_compute. reflexivity. Qed.

(** An index equal to the number of documents: the lookup raises and
    the function returns nothing, after both calls were made. *)
Example index_out_of_range :
  search_kb_with_optional_rerank
    (one_hit_client [VDict [("index", VInt 1)]])
    sample_query (VStr "KB1") sample_arn (VBool true) []
  = (Raise IndexError,
     [Retrieve (VStr "KB1") sample_query 5;
      Rerank sample_query sample_arn 5 ["net sales grew in 2023"]]).
Proof. vm_compute. reflexivity. Qed.

(** A span that is not a str makes the join refuse the hit. *)
Example span_not_a_str :
  extract_text
    (VDict [("content", VDict [("text", VList [VDict [("span", VInt 5)]])])])
  = Raise TypeError.
Proof. reflexivity. Qed.

(** A mapping fragment without span contributes the empty str. *)
Example fragment_without_span :
  extract_text
    (VDict [("content",
             VDict [("text", VList [VStr "net"; VDict []; VStr "sales"])])])
  = Ok "net  sales".
Proof. reflexivity. Qed.

(** A [content.text] that is one str is iterated character by
    character. *)
Example text_as_one_str :
  extract_text (VDict [("content", VDict [("text", VStr "net")])])
  = Ok "n e t".
Proof. reflexivity. Qed.

(** [str] of a nested value. *)
Example py_str_nested :
  py_str (VList [VStr "it's"; VInt (-3); VNone; VBool true; VFloat "0.5";
                 VDict [("k", VStr (String "010"%char "a"))]])
  = "[" ++ chr dquote ++ "it's" ++ chr dquote
    ++ ", -3, None, True, 0.5, {'k': '" ++ chr backslash ++ "na'}]".
Proof. vm_compute. reflexivity. Qed.

(** The whole pipeline on the sample responses, reranking on. *)
Example sample_run_reranked :
  retrieve_and_generate sample_client (VStr "Q") (VStr "KB1") sample_arn
    (VBool true) []
  = (Ok (VStr "Sales grew."),
     [Retrieve (VStr "KB1") (VStr "Q") 5;
      Rerank (VStr "Q") sample_arn 5 sample_documents;
      InvokeModel model_id 500
        ("Query: Q" ++ nl ++ nl ++ "Context from reranked:" ++ nl
         ++ "Document 1: net sales grew in 2023......" ++ nl ++ nl
         ++ "Document 2: " ++ str_prefix 300 long_text ++ "..."
         ++ nl ++ nl ++ "Answer:")]).
Proof. vm_compute. reflexivity. Qed.

(* ------------------------------------------------------------------ *)
(** ** More on the two lists                                            *)
(* ------------------------------------------------------------------ *)






(* ------------------------------------------------------------------ *)
(** ** The calls a run makes                                            *)
(* ------------------------------------------------------------------ *)

Lemma rerank_enabled_iff (use_reranking model_arn : PyVal)
    (documents : list string) :
  rerank_enabled use_reranking model_arn documents = true
  <-> truthy use_reranking = true /\ truthy model_arn = true
      /\ documents <> [].
Proof.
  unfold rerank_enabled. rewrite !andb_true_iff.
  destruct documents; split; intros H; intuition congruence.
Qed.

(** The rerank call is made exactly when the retrieve call answered,
    documents were extracted from the answer, [use_reranking] and
    [model_arn] are true values and the document list is not empty.
    It is then the second call, and it submits the documents as
    extracted (not cut to 300 characters), in the order of the hits,
    asking for 5 results. *)
Theorem rerank_called_exactly_when (client : Client)
    (query kb_id model_arn use_reranking : PyVal) :
  let run := search_kb_with_optional_rerank client query kb_id model_arn
               use_reranking [] in
  (existsb is_rerank (snd run) = true
   <-> exists kb_response original_results documents,
         client (Retrieve kb_id query 5) = Ok kb_response
         /\ extract_documents kb_response = Ok (original_results, documents)
         /\ truthy use_reranking = true /\ truthy model_arn = true
         /\ documents <> [])
  /\ (forall kb_response original_results documents,
        client (Retrieve kb_id query 5) = Ok kb_response ->
        extract_documents kb_response = Ok (original_results, documents) ->
        truthy use_reranking = true -> truthy model_arn = true ->
        documents <> [] ->
        snd run = [Retrieve kb_id query 5;
                   Rerank query model_arn 5 documents])
  /\ (existsb is_rerank (snd run) = false ->
      snd run = [Retrieve kb_id query 5]).
Proof.
  intros run. unfold run. rewrite search_run. cbv zeta.
  destruct (client (Retrieve kb_id query 5)) as [kb_response|e] eqn:Hkb.
  - destruct (extract_documents kb_response) as [[o d]|e] eqn:Hdocs.
    + destruct (rerank_enabled use_reranking model_arn d) eqn:Hen.
      * assert (Hsnd :
                  snd (match client (Rerank query model_arn 5 d) with
                       | Ok reranked =>
                           match process_reranked d reranked with
                           | Ok rr =>
                               (Ok (VDict [("original_results", VList o);
                                           ("reranked_results", VList rr)]),
                                ([] ++ [Retrieve kb_id query 5])
                                ++ [Rerank query model_arn 5 d])%list
                           | Raise e =>
                               (Raise e,
                                (([] ++ [Retrieve kb_id query 5])
                                 ++ [Rerank query model_arn 5 d])%list)
                           end
                       | Raise e =>
                           (Raise e,
                            (([] ++ [Retrieve kb_id query 5])
                             ++ [Rerank query model_arn 5 d])%list)
                       end)
                  = [Retrieve kb_id query 5; Rerank query model_arn 5 d]).
        { destruct (client (Rerank query model_arn 5 d)) as [reranked|e];
            [destruct (process_reranked d reranked)|]; reflexivity. }
        rewrite Hsnd. apply rerank_enabled_iff in Hen.
        destruct Hen as (Huse & Harn & Hne).
        split; [|split].
        -- split; [|reflexivity]. intros _. exists kb_response, o, d. auto.
        -- intros kb' o' d' Hkb' Hdocs' _ _ _. injection Hkb' as <-.
           rewrite Hdocs in Hdocs'. injection Hdocs' as <- <-. reflexivity.
        -- discriminate.
      * cbn [snd app existsb is_rerank orb]. split; [|split].
        -- split; [discriminate|].
           intros (kb' & o' & d' & Hkb' & Hdocs' & Huse & Harn & Hne).
           injection Hkb' as <-. rewrite Hdocs in Hdocs'.
           injection Hdocs' as <- <-.
           assert (rerank_enabled use_reranking model_arn d = true)
             by (apply rerank_enabled_iff; auto).
           congruence.
        -- intros kb' o' d' Hkb' Hdocs' Huse Harn Hne.
           injection Hkb' as <-. rewrite Hdocs in Hdocs'.
           injection Hdocs' as <- <-.
           assert (rerank_enabled use_reranking model_arn d = true)
             by (apply rerank_enabled_iff; auto).
           congruence.
        -- reflexivity.
    + cbn [snd app existsb is_rerank orb]. split; [|split].
      * split; [discriminate|].
        intros (kb' & o' & d' & Hkb' & Hdocs' & _).
        injection Hkb' as <-. congruence.
      * intros kb' o' d' Hkb' Hdocs'. injection Hkb' as <-. congruence.
      * reflexivity.
  - cbn [snd app existsb is_rerank orb]. split; [|split].
    + split; [discriminate|].
      intros (kb' & o' & d' & Hkb' & _). discriminate.
    + intros kb' o' d' Hkb'. discriminate.
    + reflexivity.
Qed.

Lemma rerank_called_exactly_when_witness :
  snd (search_kb_with_optional_rerank sample_client sample_query (VStr "KB1")
         sample_arn (VBool true) [])
  = [Retrieve (VStr "KB1") sample_query 5;
     Rerank sample_query sample_arn 5 sample_documents].
Proof.
  destruct (rerank_called_exactly_when sample_client sample_query
              (VStr "KB1") sample_arn (VBool true))
    as (_ & Hcalls & _).
  apply (Hcalls sample_kb_response
           (retrieved_entries 0 [VFloat "0.71"; VFloat "0.64"]
              sample_documents)
           sample_documents).
  - reflexivity.
  - vm_compute. reflexivity.
  - reflexivity.
  - reflexivity.
  - discriminate.
Defined.

(** A failure of the retrieve call ends both functions with that
    exception after the one call: no rerank call, no model call. *)
Theorem retrieve_failure_propagates (client : Client)
    (query kb_id model_arn use_reranking : PyVal) (e : PyExc) :
  client (Retrieve kb_id query 5) = Raise e ->
  search_kb_with_optional_rerank client query kb_id model_arn
    use_reranking [] = (Raise e, [Retrieve kb_id query 5])
  /\ retrieve_and_generate client query kb_id model_arn use_reranking []
     = (Raise e, [Retrieve kb_id query 5]).
Proof.
  intros Hkb.
  assert (Hsearch : search_kb_with_optional_rerank client query kb_id
                      model_arn use_reranking []
                    = (Raise e, [Retrieve kb_id query 5])).
  { rewrite search_run. cbv zeta. rewrite Hkb. reflexivity. }
  split; [exact Hsearch|].
  unfold retrieve_and_generate, mbind. rewrite Hsearch. reflexivity.
Qed.

Lemma retrieve_failure_propagates_witness :
  retrieve_and_generate (fun _ => Raise (ClientError "ThrottlingException"))
    sample_query (VStr "KB1") sample_arn (VBool true) []
  = (Raise (ClientError "ThrottlingException"),
     [Retrieve (VStr "KB1") sample_query 5]).
Proof.
  apply (retrieve_failure_propagates
           (fun _ => Raise (ClientError "ThrottlingException"))
           sample_query (VStr "KB1") sample_arn (VBool true)
           (ClientError "ThrottlingException")).
  reflexivity.
Defined.

(** A failure of the rerank call ends both functions with that
    exception: the original results already built are not returned, and
    no model call is made. *)
Theorem rerank_failure_propagates (client : Client)
    (query kb_id model_arn use_reranking kb_response : PyVal)
    (original_results : list PyVal) (documents : list string) (e : PyExc) :
  client (Retrieve kb_id query 5) = Ok kb_response ->
  extract_documents kb_response = Ok (original_results, documents) ->
  rerank_enabled use_reranking model_arn documents = true ->
  client (Rerank query model_arn 5 documents) = Raise e ->
  search_kb_with_optional_rerank client query kb_id model_arn
    use_reranking []
  = (Raise e, [Retrieve kb_id query 5; Rerank query model_arn 5 documents])
  /\ retrieve_and_generate client query kb_id model_arn use_reranking []
     = (Raise e,
        [Retrieve kb_id query 5; Rerank query model_arn 5 documents]).
Proof.
  intros Hkb Hdocs Hen Hcall.
  assert (Hsearch : search_kb_with_optional_rerank client query kb_id
                      model_arn use_reranking []
                    = (Raise e, [Retrieve kb_id query 5;
                                 Rerank query model_arn 5 documents])).
  { rewrite search_run. cbv zeta. rewrite Hkb, Hdocs, Hen, Hcall.
    reflexivity. }
  split; [exact Hsearch|].
  unfold retrieve_and_generate, mbind. rewrite Hsearch. reflexivity.
Qed.

Lemma rerank_failure_propagates_witness :
  search_kb_with_optional_rerank
    (fun c => match c with
              | Rerank _ _ _ _ => Raise (ClientError "AccessDeniedException")
              | _ => Ok sample_kb_response
              end)
    sample_query (VStr "KB1") sample_arn (VBool true) []
  = (Raise (ClientError "AccessDeniedException"),
     [Retrieve (VStr "KB1") sample_query 5;
      Rerank sample_query sample_arn 5 sample_documents]).
Proof.
  apply (rerank_failure_propagates
           (fun c => match c with
                     | Rerank _ _ _ _ =>
                         Raise (ClientError "AccessDeniedException")
                     | _ => Ok sample_kb_response
                     end)
           sample_query (VStr "KB1") sample_arn (VBool true)
           sample_kb_response
           (retrieved_entries 0 [VFloat "0.71"; VFloat "0.64"]
              sample_documents)
           sample_documents (ClientError "AccessDeniedException")).
  - reflexivity.
  - vm_compute. reflexivity.
  - reflexivity.
  - reflexivity.
Defined.

(** Between the search and the model call nothing can fail: whenever
    the search returns, [retrieve_and_generate] makes exactly one more
    call, the model call, and its result is what the answer extraction
    gives on the model's reply; whenever the search raises, it raises
    the same and makes no further call.  So a run makes at most three
    calls, a model call never comes before the retrieve call, and
    there is never more than one of it. *)
Theorem model_called_once_after_search (client : Client)
    (query kb_id rerank_model_arn use_reranking : PyVal) :
  let searched := search_kb_with_optional_rerank client query kb_id
                    rerank_model_arn use_reranking [] in
  let run := retrieve_and_generate client query kb_id rerank_model_arn
               use_reranking [] in
  (forall e, fst searched = Raise e -> run = (Raise e, snd searched))
  /\ (forall results,
        fst searched = Ok results ->
        exists prompt,
          snd run = (snd searched ++ [InvokeModel model_id 500 prompt])%list
          /\ fst run = rbind (client (InvokeModel model_id 500 prompt))
                         answer_text)
  /\ (length (snd run) <= 3)%nat.
Proof.
  intros searched run.
  destruct searched as [r log] eqn:Hsearch. unfold searched in Hsearch.
  assert (Hlog : (length log <= 2)%nat).
  { pose proof (f_equal snd Hsearch) as Hsnd. cbn [snd] in Hsnd.
    rewrite search_run in Hsnd. cbv zeta in Hsnd. rewrite <- Hsnd.
    destruct (client (Retrieve kb_id query 5)) as [kb|e]; [|simpl; lia].
    destruct (extract_documents kb) as [[o d]|e]; [|simpl; lia].
    destruct (rerank_enabled use_reranking rerank_model_arn d);
      [|simpl; lia].
    destruct (client (Rerank query rerank_model_arn 5 d)) as [reranked|e];
      [|simpl; lia].
    destruct (process_reranked d reranked); simpl; lia. }
  destruct r as [results|e]; cbn [fst snd].
  - destruct (select_docs_of_search _ _ _ _ _ _ _ Hsearch)
      as (o & otexts & _ & _ & Hcase).
    assert (Hsel : exists texts label,
               select_docs use_reranking results = Ok (map VStr texts, label)).
    { destruct Hcase as [(_ & Hsel) | (_ & _ & rr & rtexts & _ & _ & Hsel)];
        eauto. }
    destruct Hsel as (texts & label & Hsel).
    pose proof (retrieve_and_generate_run _ _ _ _ _ _ _ _ _ _ Hsearch Hsel
                  (build_context_strs texts)) as Hrun.
    fold run in Hrun. rewrite Hrun. cbn [fst snd].
    split; [discriminate|]. split.
    + intros results' _. eexists. split; reflexivity.
    + rewrite length_app. simpl. lia.
  - assert (Hrun : run = (Raise e, log)).
    { unfold run, retrieve_and_generate, mbind. rewrite Hsearch. reflexivity. }
    rewrite Hrun. cbn [fst snd].
    split; [intros e' He'; injection He' as <-; reflexivity|].
    split; [discriminate | lia].
Qed.

Lemma model_called_once_after_search_witness :
  exists prompt,
    snd (retrieve_and_generate sample_client sample_query (VStr "KB1")
           sample_arn (VBool false) [])
    = [Retrieve (VStr "KB1") sample_query 5; InvokeModel model_id 500 prompt].
Proof.
  destruct (model_called_once_after_search sample_client sample_query
              (VStr "KB1") sample_arn (VBool false))
    as (_ & Hreturns & _).
  destruct (Hreturns
              (VDict [("original_results",
                       VList (retrieved_entries 0
                                [VFloat "0.71"; VFloat "0.64"]
                                sample_documents))]))
    as (prompt & Hlog & _).
  - vm_compute. reflexivity.
  - exists prompt. exact Hlog.
Defined.

(** The original results returned do not depend on whether reranking
    was asked for, nor on the model ARN: two runs of the search against
    the same services for the same query, when both return, return the
    same [original_results]. *)
Theorem original_results_unaffected_by_reranking (client : Client)
    (query kb_id arn1 use1 arn2 use2 results1 results2 : PyVal)
    (log1 log2 : list Call) :
  search_kb_with_optional_rerank client query kb_id arn1 use1 []
  = (Ok results1, log1) ->
  search_kb_with_optional_rerank client query kb_id arn2 use2 []
  = (Ok results2, log2) ->
  exists original_results,
    py_getitem "original_results" results1 = Ok (VList original_results)
    /\ py_getitem "original_results" results2 = Ok (VList original_results).
Proof.
  intros H1 H2. apply search_inv in H1. apply search_inv in H2.
  destruct H1 as (kb1 & o1 & d1 & Hkb1 & Hdocs1 & Hcase1).
  destruct H2 as (kb2 & o2 & d2 & Hkb2 & Hdocs2 & Hcase2).
  rewrite Hkb1 in Hkb2. injection Hkb2 as <-.
  rewrite Hdocs1 in Hdocs2. injection Hdocs2 as <- <-.
  exists o1.
  destruct Hcase1 as [(_ & -> & _) | (_ & ? & ? & _ & _ & -> & _)];
    destruct Hcase2 as [(_ & -> & _) | (_ & ? & ? & _ & _ & -> & _)];
    split; reflexivity.
Qed.

Lemma original_results_unaffected_by_reranking_witness :
  exists original_results,
    py_getitem "original_results"
      (VDict [("original_results",
               VList (retrieved_entries 0 [VFloat "0.71"; VFloat "0.64"]
                        sample_documents))])
    = Ok (VList original_results)
    /\ length original_results = 2%nat.
Proof.
  destruct (original_results_unaffected_by_reranking sample_client
              sample_query (VStr "KB1") sample_arn (VBool false)
              sample_arn (VBool true)
              (VDict [("original_results",
                       VList (retrieved_entries 0
                                [VFloat "0.71"; VFloat "0.64"]
                                sample_documents))])
              (VDict [("original_results",
                       VList (retrieved_entries 0
                                [VFloat "0.71"; VFloat "0.64"]
                                sample_documents));
                      ("reranked_results",
                       VList (reranked_from 0
                                [(1, VFloat "0.93", "net sales grew in 2023");
                                 (0, VFloat "0.12", long_text)]))])
              [Retrieve (VStr "KB1") sample_query 5]
              [Retrieve (VStr "KB1") sample_query 5;
               Rerank sample_query sample_arn 5 sample_documents])
    as (o & Ho & _).
  - vm_compute. reflexivity.
  - vm_compute. reflexivity.
  - exists o. split; [exact Ho|].
    cbn [py_getitem dict_lookup String.eqb] in Ho.
    injection Ho as <-. reflexivity.
Defined.

(* ------------------------------------------------------------------ *)
(** ** Lengths and repeated cuts                                        *)
(* ------------------------------------------------------------------ *)

Lemma str_length_app (s t : string) :
  String.length (s ++ t) = (String.length s + String.length t)%nat.
Proof.
  induction s as [|c s IH]; simpl; [reflexivity | rewrite IH; reflexivity].
Qed.

Lemma str_prefix_length_le (n : nat) (s : string) :
  (String.length (str_prefix n s) <= n)%nat.
Proof.
  unfold str_prefix. revert n.
  induction s as [|c s IH]; intros [|n]; simpl; try lia.
  specialize (IH n). lia.
Qed.

Lemma str_prefix_app_exact (n : nat) (p s : string) :
  String.length p = n -> str_prefix n (p ++ s) = p.
Proof.
  unfold str_prefix. revert n.
  induction p as [|c p IH]; intros n H; simpl in H; subst n.
  - destruct s; reflexivity.
  - simpl. f_equal. apply IH. reflexivity.
Qed.

Lemma str_prefix_app_short (n : nat) (p s : string) :
  (String.length p + String.length s <= n)%nat ->
  str_prefix n (p ++ s) = p ++ s.
Proof.
  intros H. apply str_prefix_short. rewrite str_length_app. exact H.
Qed.

Lemma str_prefix_truncate_text (text : string) :
  str_prefix 300 (truncate_text text) = str_prefix 300 text.
Proof.
  unfold truncate_text.
  destruct (Nat.ltb_spec 300 (String.length text)) as [Hlong|Hshort];
    [|reflexivity].
  apply str_prefix_app_exact. apply str_prefix_length. lia.
Qed.

Lemma truncate_text_length (text : string) :
  (String.length (truncate_text text) <= 303)%nat.
Proof.
  unfold truncate_text.
  destruct (Nat.ltb_spec 300 (String.length text)) as [Hlong|Hshort].
  - rewrite str_length_app.
    pose proof (str_prefix_length_le 300 text).
    change (String.length ellipsis) with 3%nat. lia.
  - lia.
Qed.

Lemma context_of_same_prefixes (f : string -> string) (l : list string) :
  (forall t, str_prefix 300 (f t) = str_prefix 300 t) ->
  context_of (map f l) = context_of l.
Proof.
  intros Hf. unfold context_of.
  destruct l as [|a [|b [|c rest]]]; cbn [map combine]; rewrite ?Hf;
    reflexivity.
Qed.

(** On the retrieval path a context line shows the
    first 300 characters of the document as extracted.  The stored text
    is cut to 300 characters plus the marker and the context cuts it to
    300 again, which removes the first marker: on a run without
    reranked results the context sent to the model is built from the
    extracted documents themselves. *)
Theorem vector_context_from_documents (client : Client)
    (query kb_id rerank_model_arn use_reranking results : PyVal)
    (log : list Call) :
  search_kb_with_optional_rerank client query kb_id rerank_model_arn
    use_reranking [] = (Ok results, log) ->
  py_contains "reranked_results" results = Ok false ->
  exists kb_response original_results documents,
    client (Retrieve kb_id query 5) = Ok kb_response
    /\ extract_documents kb_response = Ok (original_results, documents)
    /\ snd (retrieve_and_generate client query kb_id rerank_model_arn
              use_reranking [])
       = (log ++ [InvokeModel model_id 500
                    (build_prompt query "vector search"
                       (context_of documents))])%list.
Proof.
  intros Hsearch Hnokey.
  pose proof Hsearch as Hinv. apply search_inv in Hinv.
  destruct Hinv as (kb & o & d & Hkb & Hdocs & Hcase).
  exists kb, o, d. split; [exact Hkb|]. split; [exact Hdocs|].
  destruct Hcase as [(_ & Hres & _) | (_ & ? & ? & _ & _ & Hres & _)];
    [|rewrite Hres in Hnokey; discriminate].
  pose proof (original_entries_texts _ _ _ Hdocs) as Htexts.
  assert (Hsel : select_docs use_reranking results
                 = Ok (map VStr (map truncate_text d), "vector search")).
  { rewrite Hres. unfold select_docs, doc_texts.
    destruct (truthy use_reranking); cbn; rewrite Htexts; reflexivity. }
  rewrite (retrieve_and_generate_run _ _ _ _ _ _ _ _ _ _ Hsearch Hsel
             (build_context_strs _)).
  cbn [snd].
  rewrite (context_of_same_prefixes truncate_text d str_prefix_truncate_text).
  reflexivity.
Qed.

Lemma vector_context_from_documents_witness :
  snd (retrieve_and_generate sample_client sample_query (VStr "KB1")
         sample_arn (VBool false) [])
  = [Retrieve (VStr "KB1") sample_query 5;
     InvokeModel model_id 500
       (build_prompt sample_query "vector search"
          (context_of sample_documents))].
Proof.
  destruct (vector_context_from_documents sample_client sample_query
              (VStr "KB1") sample_arn (VBool false)
              (VDict [("original_results",
                       VList (retrieved_entries 0
                                [VFloat "0.71"; VFloat "0.64"]
                                sample_documents))])
              [Retrieve (VStr "KB1") sample_query 5])
    as (kb & o & d & Hkb & Hdocs & Hrun).
  - vm_compute. reflexivity.
  - reflexivity.
  - injection Hkb as <-. vm_compute in Hdocs. injection Hdocs as <- <-.
    exact Hrun.
Defined.

Lemma reads_chosen (documents : list string) (entries : list PyVal)
    (reads : list (Z * PyVal * string)) :
  Forall2 (entry_read documents) entries reads ->
  Forall2 (fun entry doc =>
             exists idx, entry_index entry = Ok idx
                         /\ list_getitem documents idx = Ok doc)
    entries (map read_document reads).
Proof.
  induction 1 as [|entry [[idx score] doc] entries reads
                    (Hidx & _ & Hdoc) _ IH]; cbn [map read_document];
    constructor; eauto.
Qed.

Lemma reranked_text_of_read (reads : list (Z * PyVal * string)) :
  map reranked_text_of reads
  = map (fun doc => str_prefix 300 doc ++ "...") (map read_document reads).
Proof.
  induction reads as [|[[idx score] doc] reads IH]; cbn [map]; [reflexivity|].
  rewrite IH. reflexivity.
Qed.

(** On the rerank path the text is cut twice and marked twice: the
    stored text is the first 300 characters of the chosen document plus
    the marker, and the context line is the first 300 characters of
    that plus the marker.  A chosen document of at most 297 characters
    therefore appears whole, followed by six dots; one of 300
    characters or more appears as its first 300 characters and three
    dots. *)
Theorem reranked_context_cut_twice (client : Client)
    (query kb_id rerank_model_arn use_reranking results : PyVal)
    (log : list Call) :
  search_kb_with_optional_rerank client query kb_id rerank_model_arn
    use_reranking [] = (Ok results, log) ->
  py_contains "reranked_results" results = Ok true ->
  (exists documents reranked entries chosen,
     client (Rerank query rerank_model_arn 5 documents) = Ok reranked
     /\ reranked_entries reranked = Ok entries
     /\ Forall2 (fun entry doc =>
                   exists idx, entry_index entry = Ok idx
                               /\ list_getitem documents idx = Ok doc)
          entries chosen
     /\ snd (retrieve_and_generate client query kb_id rerank_model_arn
               use_reranking [])
        = (log ++ [InvokeModel model_id 500
                     (build_prompt query "reranked"
                        (context_of
                           (map (fun doc =>
                                   (str_prefix 300 doc ++ "...")%string)
                              chosen)))])%list)
  /\ (forall doc,
        (String.length doc <= 297)%nat ->
        context_of [str_prefix 300 doc ++ "..."]
        = "Document 1: " ++ doc ++ "......")
  /\ (forall doc,
        (300 <= String.length doc)%nat ->
        context_of [str_prefix 300 doc ++ "..."]
        = "Document 1: " ++ str_prefix 300 doc ++ "...").
Proof.
  intros Hsearch Hkey. split; [|split].
  - pose proof Hsearch as Hinv. apply search_inv in Hinv.
    destruct Hinv as (kb & o & d & Hkb & Hdocs & Hcase).
    destruct Hcase as [(_ & Hres & _) | (Hen & reranked & rr & Hcall & Hproc & Hres & _)];
      [rewrite Hres in Hkey; discriminate|].
    apply process_reranked_inv in Hproc.
    destruct Hproc as (entries & reads & Hentries & Hreads & ->).
    exists d, reranked, entries, (map read_document reads).
    split; [exact Hcall|]. split; [exact Hentries|].
    split; [exact (reads_chosen d entries reads Hreads)|].
    assert (Hsel : select_docs use_reranking results
                   = Ok (map VStr (map reranked_text_of reads), "reranked")).
    { rewrite Hres. unfold select_docs, doc_texts.
      rewrite (rerank_enabled_truthy _ _ _ Hen). cbn.
      rewrite (reranked_from_doc_texts reads 0). reflexivity. }
    rewrite (retrieve_and_generate_run _ _ _ _ _ _ _ _ _ _ Hsearch Hsel
               (build_context_strs _)).
    cbn [snd]. rewrite reranked_text_of_read. reflexivity.
  - intros doc Hshort. unfold context_of, str_join.
    cbn [combine map String.concat].
    rewrite (str_prefix_short 300 doc) by lia.
    rewrite (str_prefix_short 300 (doc ++ "...")).
    + rewrite !str_app_assoc. reflexivity.
    + rewrite str_length_app. change (String.length "...") with 3%nat. lia.
  - intros doc Hlong. unfold context_of, str_join.
    cbn [combine map String.concat].
    rewrite (str_prefix_app_exact 300 (str_prefix 300 doc) "...");
      [reflexivity|].
    apply str_prefix_length. exact Hlong.
Qed.

Lemma reranked_context_cut_twice_witness :
  snd (retrieve_and_generate sample_client sample_query (VStr "KB1")
         sample_arn (VBool true) [])
  = [Retrieve (VStr "KB1") sample_query 5;
     Rerank sample_query sample_arn 5 sample_documents;
     InvokeModel model_id 500
       (build_prompt sample_query "reranked"
          ("Document 1: net sales grew in 2023......" ++ nl ++ nl
           ++ "Document 2: " ++ str_prefix 300 long_text ++ "..."))].
Proof.
  destruct (reranked_context_cut_twice sample_client sample_query
              (VStr "KB1") sample_arn (VBool true)
              (VDict [("original_results",
                       VList (retrieved_entries 0
                                [VFloat "0.71"; VFloat "0.64"]
                                sample_documents));
                      ("reranked_results",
                       VList (reranked_from 0
                                [(1, VFloat "0.93", "net sales grew in 2023");
                                 (0, VFloat "0.12", long_text)]))])
              [Retrieve (VStr "KB1") sample_query 5;
               Rerank sample_query sample_arn 5 sample_documents])
    as ((d & reranked & entries & chosen & _ & _ & _ & Hrun) & _ & _).
  - vm_compute. reflexivity.
  - reflexivity.
  - vm_compute. reflexivity.
Defined.

(** An empty rerank response is not replaced by the original results:
    the result carries an empty [reranked_results], the documents
    chosen are those none, and the model is asked with an empty context
    under the label "reranked", although original results exist. *)
Theorem empty_rerank_response_gives_empty_context (client : Client)
    (query kb_id rerank_model_arn use_reranking kb_response reranked : PyVal)
    (original_results : list PyVal) (documents : list string) :
  client (Retrieve kb_id query 5) = Ok kb_response ->
  extract_documents kb_response = Ok (original_results, documents) ->
  rerank_enabled use_reranking rerank_model_arn documents = true ->
  client (Rerank query rerank_model_arn 5 documents) = Ok reranked ->
  reranked_entries reranked = Ok [] ->
  original_results <> []
  /\ search_kb_with_optional_rerank client query kb_id rerank_model_arn
       use_reranking []
     = (Ok (VDict [("original_results", VList original_results);
                   ("reranked_results", VList [])]),
        [Retrieve kb_id query 5; Rerank query rerank_model_arn 5 documents])
  /\ snd (retrieve_and_generate client query kb_id rerank_model_arn
            use_reranking [])
     = [Retrieve kb_id query 5;
        Rerank query rerank_model_arn 5 documents;
        InvokeModel model_id 500
          ("Query: " ++ py_str query ++ nl ++ nl
           ++ "Context from reranked:" ++ nl ++ nl ++ nl ++ "Answer:")].
Proof.
  intros Hkb Hdocs Hen Hcall Hentries.
  assert (Hsearch :
            search_kb_with_optional_rerank client query kb_id rerank_model_arn
              use_reranking []
            = (Ok (VDict [("original_results", VList original_results);
                          ("reranked_results", VList [])]),
               [Retrieve kb_id query 5;
                Rerank query rerank_model_arn 5 documents])).
  { rewrite search_run. cbv zeta. rewrite Hkb, Hdocs, Hen, Hcall.
    unfold process_reranked. rewrite Hentries. reflexivity. }
  split; [|split; [exact Hsearch|]].
  - apply rerank_enabled_iff in Hen. destruct Hen as (_ & _ & Hne).
    pose proof Hdocs as Hinv. apply extract_documents_inv in Hinv.
    destruct Hinv as (hits & scores & _ & Ht & Hs & Ho).
    assert (Hlen : length original_results = length documents).
    { rewrite Ho. apply retrieved_entries_length.
      apply Forall2_same_length in Ht. apply Forall2_same_length in Hs.
      congruence. }
    intros Hnil. rewrite Hnil in Hlen.
    destruct documents; [congruence | discriminate Hlen].
  - assert (Hsel : select_docs use_reranking
                     (VDict [("original_results", VList original_results);
                             ("reranked_results", VList [])])
                   = Ok (map VStr [], "reranked")).
    { unfold select_docs, doc_texts.
      rewrite (rerank_enabled_truthy _ _ _ Hen). reflexivity. }
    rewrite (retrieve_and_generate_run _ _ _ _ _ _ _ _ _ _ Hsearch Hsel
               (build_context_strs [])).
    reflexivity.
Qed.

Lemma empty_rerank_response_gives_empty_context_witness :
  snd (retrieve_and_generate (one_hit_client []) (VStr "Q") (VStr "KB1")
         sample_arn (VBool true) [])
  = [Retrieve (VStr "KB1") (VStr "Q") 5;
     Rerank (VStr "Q") sample_arn 5 ["net sales grew in 2023"];
     InvokeModel model_id 500
       ("Query: Q" ++ nl ++ nl ++ "Context from reranked:" ++ nl ++ nl ++ nl
        ++ "Answer:")].
Proof.
  destruct (empty_rerank_response_gives_empty_context (one_hit_client [])
              (VStr "Q") (VStr "KB1") sample_arn (VBool true)
              one_hit_response (VDict [("results", VList [])])
              [RetrievedDocument 1 (VFloat "0.64") "net sales grew in 2023"]
              ["net sales grew in 2023"])
    as (_ & _ & Hrun).
  - reflexivity.
  - reflexivity.
  - reflexivity.
  - reflexivity.
  - reflexivity.
  - exact Hrun.
Defined.

Lemma context_line_length (label doc : string) :
  String.length label = 1%nat ->
  (String.length ("Document " ++ label ++ ": " ++ str_prefix 300 doc ++ "...")
   <= 315)%nat.
Proof.
  intros Hlabel. rewrite !str_length_app, Hlabel.
  pose proof (str_prefix_length_le 300 doc) as Hdoc. revert Hdoc.
  generalize (String.length (str_prefix 300 doc)). intros n Hn.
  change (String.length "Document ") with 9%nat.
  change (String.length ": ") with 2%nat.
  change (String.length "...") with 3%nat. lia.
Qed.

Ltac bound_line label doc :=
  let H := fresh "Hline" in
  pose proof (context_line_length label doc eq_refl) as H;
  revert H;
  generalize ("Document " ++ label ++ ": " ++ str_prefix 300 doc ++ "...");
  intros ? H.

Lemma context_of_length (selected : list string) :
  (String.length (context_of selected) <= 949)%nat.
Proof.
  unfold context_of, str_join.
  destruct selected as [|a [|b [|c rest]]]; cbn [combine map String.concat].
  - simpl. lia.
  - bound_line "1" a. lia.
  - bound_line "1" a. bound_line "2" b.
    rewrite !str_length_app. change (String.length nl) with 1%nat. lia.
  - bound_line "1" a. bound_line "2" b. bound_line "3" c.
    rewrite !str_length_app. change (String.length nl) with 1%nat. lia.
Qed.

Lemma build_prompt_length (query : PyVal) (source_type context : string) :
  String.length (build_prompt query source_type context)
  = (String.length (py_str query) + String.length source_type
     + String.length context + 33)%nat.
Proof.
  unfold build_prompt. rewrite !str_length_app.
  change (String.length nl) with 1%nat.
  change (String.length "Query: ") with 7%nat.
  change (String.length "Context from ") with 13%nat.
  change (String.length ":") with 1%nat.
  change (String.length "Answer:") with 7%nat. lia.
Qed.

(** The prompt has a bounded size whatever the documents are: on every
    run that reaches the model call the prompt is at most 995 characters
    longer than the query as printed (three lines of at most 315
    characters, the label and the fixed text). *)
Theorem prompt_length_bounded (client : Client)
    (query kb_id rerank_model_arn use_reranking results : PyVal)
    (log : list Call) :
  search_kb_with_optional_rerank client query kb_id rerank_model_arn
    use_reranking [] = (Ok results, log) ->
  exists prompt,
    snd (retrieve_and_generate client query kb_id rerank_model_arn
           use_reranking [])
    = (log ++ [InvokeModel model_id 500 prompt])%list
    /\ (String.length prompt <= String.length (py_str query) + 995)%nat.
Proof.
  intros Hsearch.
  destruct (select_docs_of_search _ _ _ _ _ _ _ Hsearch)
    as (o & otexts & _ & _ & Hcase).
  destruct Hcase as [(_ & Hsel) | (_ & _ & rr & rtexts & _ & _ & Hsel)].
  - exists (build_prompt query "vector search" (context_of otexts)).
    rewrite (retrieve_and_generate_run _ _ _ _ _ _ _ _ _ _ Hsearch Hsel
               (build_context_strs otexts)).
    split; [reflexivity|]. rewrite build_prompt_length.
    pose proof (context_of_length otexts).
    change (String.length "vector search") with 13%nat. lia.
  - exists (build_prompt query "reranked" (context_of rtexts)).
    rewrite (retrieve_and_generate_run _ _ _ _ _ _ _ _ _ _ Hsearch Hsel
               (build_context_strs rtexts)).
    split; [reflexivity|]. rewrite build_prompt_length.
    pose proof (context_of_length rtexts).
    change (String.length "reranked") with 8%nat. lia.
Qed.

Lemma prompt_length_bounded_witness :
  exists prompt,
    snd (retrieve_and_generate sample_client sample_query (VStr "KB1")
           sample_arn (VBool false) [])
    = [Retrieve (VStr "KB1") sample_query 5; InvokeModel model_id 500 prompt]
    /\ (String.length prompt <= 41 + 995)%nat.
Proof.
  destruct (prompt_length_bounded sample_client sample_query (VStr "KB1")
              sample_arn (VBool false)
              (VDict [("original_results",
                       VList (retrieved_entries 0
                                [VFloat "0.71"; VFloat "0.64"]
                                sample_documents))])
              [Retrieve (VStr "KB1") sample_query 5])
    as (prompt & Hrun & Hlen).
  - vm_compute. reflexivity.
  - exists prompt. split; [exact Hrun | exact Hlen].
Defined.

Lemma retrieved_entries_within_303 (scores : list PyVal)
    (texts : list string) :
  forall i, Forall text_within_303 (retrieved_entries i scores texts).
Proof.
  revert texts. induction scores as [|s scores IH]; intros [|t texts] i;
    cbn [retrieved_entries]; constructor; [|apply IH].
  exists (truncate_text t). split; [reflexivity | apply truncate_text_length].
Qed.

Lemma reranked_from_within_303 (reads : list (Z * PyVal * string)) :
  forall n, Forall text_within_303 (reranked_from n reads).
Proof.
  induction reads as [|[[idx score] doc] reads IH]; intros n;
    cbn [reranked_from]; constructor; [|apply IH].
  exists (str_prefix 300 doc ++ ellipsis). split; [reflexivity|].
  rewrite str_length_app. pose proof (str_prefix_length_le 300 doc).
  change (String.length ellipsis) with 3%nat. lia.
Qed.

(** No stored text is longer than 303 characters: in a result of the
    search every entry of [original_results] and of [reranked_results]
    carries a text of at most 300 characters plus the marker. *)
Theorem stored_texts_within_303 (client : Client)
    (query kb_id model_arn use_reranking results : PyVal) (log : list Call) :
  search_kb_with_optional_rerank client query kb_id model_arn
    use_reranking [] = (Ok results, log) ->
  (exists original_results,
     py_getitem "original_results" results = Ok (VList original_results)
     /\ Forall text_within_303 original_results)
  /\ (forall reranked_results,
        py_getitem "reranked_results" results = Ok (VList reranked_results) ->
        Forall text_within_303 reranked_results).
Proof.
  intros Hsearch. apply search_inv in Hsearch.
  destruct Hsearch as (kb & o & d & _ & Hdocs & Hcase).
  apply extract_documents_inv in Hdocs.
  destruct Hdocs as (hits & scores & _ & _ & _ & ->).
  destruct Hcase as [(_ & -> & _) | (_ & reranked & rr & _ & Hproc & -> & _)].
  - split.
    + eexists. split; [reflexivity | apply retrieved_entries_within_303].
    + intros rr H. discriminate.
  - split.
    + eexists. split; [reflexivity | apply retrieved_entries_within_303].
    + intros rr' H. injection H as <-.
      apply process_reranked_inv in Hproc.
      destruct Hproc as (entries & reads & _ & _ & ->).
      apply reranked_from_within_303.
Qed.

Lemma stored_texts_within_303_witness :
  exists original_results,
    py_getitem "original_results"
      (VDict [("original_results",
               VList (retrieved_entries 0 [VFloat "0.71"; VFloat "0.64"]
                        sample_documents))])
    = Ok (VList original_results)
    /\ Forall text_within_303 original_results.
Proof.
  destruct (stored_texts_within_303 sample_client sample_query (VStr "KB1")
              sample_arn (VBool false)
              (VDict [("original_results",
                       VList (retrieved_entries 0
                                [VFloat "0.71"; VFloat "0.64"]
                                sample_documents))])
              [Retrieve (VStr "KB1") sample_query 5])
    as (Horig & _).
  - vm_compute. reflexivity.
  - exact Horig.
Defined.

(* ------------------------------------------------------------------ *)
(** ** Text extraction at the edges                                     *)
(* ------------------------------------------------------------------ *)

Lemma mapM_fragment_chars (s : string) :
  mapM fragment (map VStr (str_chars s)) = Ok (map VStr (str_chars s)).
Proof.
  induction s as [|c s IH]; cbn [str_chars map mapM]; [reflexivity|].
  rewrite IH. reflexivity.
Qed.

Lemma spaced_length (s : string) :
  s <> EmptyString ->
  String.length (str_join " " (str_chars s)) = (2 * String.length s - 1)%nat.
Proof.
  unfold str_join. induction s as [|c s IH]; intros H; [congruence|].
  destruct s as [|c' s'].
  - reflexivity.
  - cbn [str_chars String.concat] in *.
    rewrite !str_length_app. rewrite IH by discriminate.
    cbn [String.length]. lia.
Qed.

(** When [content.text] is one str and not a list of fragments, the
    comprehension goes through its characters: the extracted text is
    the characters of that str separated by single spaces, of length
    2n - 1 for a str of n > 0 characters. *)
Theorem text_given_as_str_is_spaced_out
    (hit content : list (string * PyVal)) (s : string) :
  dict_lookup "content" hit = Some (VDict content) ->
  dict_lookup "text" content = Some (VStr s) ->
  extract_text (VDict hit) = Ok (str_join " " (str_chars s))
  /\ (s <> EmptyString ->
      String.length (str_join " " (str_chars s))
      = (2 * String.length s - 1)%nat).
Proof.
  intros Hcontent Htext. split; [|apply spaced_length].
  unfold extract_text. simpl. unfold dict_has.
  rewrite Hcontent. simpl. unfold dict_has. rewrite Htext. simpl.
  rewrite mapM_fragment_chars. simpl. apply py_join_strs.
Qed.

Lemma text_given_as_str_is_spaced_out_witness :
  extract_text (VDict [("content", VDict [("text", VStr "sales")])])
  = Ok "s a l e s".
Proof.
  apply (text_given_as_str_is_spaced_out
           [("content", VDict [("text", VStr "sales")])]
           [("text", VStr "sales")] "sales"); reflexivity.
Defined.

(** A hit without [content], or whose [content] is a mapping without
    [text], is not skipped: its text is the empty str. *)
Theorem hit_without_text_gives_empty_text (hit : list (string * PyVal)) :
  (dict_lookup "content" hit = None
   \/ exists content, dict_lookup "content" hit = Some (VDict content)
                      /\ dict_lookup "text" content = None) ->
  extract_text (VDict hit) = Ok EmptyString
  /\ forall i results original_results documents,
       exists score,
         py_get "scoreValue" (VInt 0) (VDict hit) = Ok score
         /\ retrieval_loop i (VDict hit :: results) original_results documents
            = retrieval_loop (S i) results
                (original_results
                   ++ [RetrievedDocument (Z.of_nat i + 1) score EmptyString])
                (documents ++ [EmptyString]).
Proof.
  intros H.
  assert (Htext : extract_text (VDict hit) = Ok EmptyString).
  { unfold extract_text. simpl. unfold dict_has.
    destruct H as [-> | (content & -> & Hnone)]; [reflexivity|].
    simpl. unfold dict_has. rewrite Hnone. reflexivity. }
  split; [exact Htext|].
  intros i results o d.
  destruct (py_get_dict "scoreValue" (VInt 0) hit) as [score Hscore].
  exists score. split; [exact Hscore|].
  cbn [retrieval_loop]. rewrite Htext. cbn [rbind]. rewrite Hscore.
  reflexivity.
Qed.

Lemma hit_without_text_gives_empty_text_witness :
  extract_documents
    (VDict [("retrievalResults", VList [VDict [("scoreValue", VFloat "0.4")]])])
  = Ok ([RetrievedDocument 1 (VFloat "0.4") EmptyString], [EmptyString]).
Proof.
  destruct (hit_without_text_gives_empty_text [("scoreValue", VFloat "0.4")])
    as (_ & Hloop).
  - left. reflexivity.
  - destruct (Hloop 0%nat [] [] []) as (score & Hscore & Hstep).
    injection Hscore as <-.
    unfold extract_documents. cbn [retrieval_hits py_get dict_lookup
                                    String.eqb py_iter rbind].
    exact Hstep.
Defined.

(** A retrieve response without the [retrievalResults] key is read as
    one with no hits: the search returns an empty [original_results]
    and makes no rerank call, whatever the flags. *)
Theorem missing_retrieval_results_is_empty (client : Client)
    (query kb_id model_arn use_reranking : PyVal)
    (response : list (string * PyVal)) :
  client (Retrieve kb_id query 5) = Ok (VDict response) ->
  dict_lookup "retrievalResults" response = None ->
  search_kb_with_optional_rerank client query kb_id model_arn
    use_reranking []
  = (Ok (VDict [("original_results", VList [])]), [Retrieve kb_id query 5]).
Proof.
  intros Hkb Hnone. rewrite search_run. cbv zeta. rewrite Hkb.
  unfold extract_documents, retrieval_hits. simpl. rewrite Hnone. simpl.
  unfold rerank_enabled. rewrite andb_false_r. reflexivity.
Qed.

Lemma missing_retrieval_results_is_empty_witness :
  search_kb_with_optional_rerank
    (fun _ => Ok (VDict [("ResponseMetadata", VDict [])]))
    sample_query (VStr "KB1") sample_arn (VBool true) []
  = (Ok (VDict [("original_results", VList [])]),
     [Retrieve (VStr "KB1") sample_query 5]).
Proof.
  apply (missing_retrieval_results_is_empty
           (fun _ => Ok (VDict [("ResponseMetadata", VDict [])]))
           sample_query (VStr "KB1") sample_arn (VBool true)
           [("ResponseMetadata", VDict [])]); reflexivity.
Defined.

(* ------------------------------------------------------------------ *)
(** ** When the rerank mapping returns                                  *)
(* ------------------------------------------------------------------ *)





(* ------------------------------------------------------------------ *)
(** ** The answer                                                       *)
(* ------------------------------------------------------------------ *)

Lemma retrieve_and_generate_after_search (client : Client)
    (query kb_id rerank_model_arn use_reranking results : PyVal)
    (log : list Call) :
  search_kb_with_optional_rerank client query kb_id rerank_model_arn
    use_reranking [] = (Ok results, log) ->
  exists prompt,
    retrieve_and_generate client query kb_id rerank_model_arn
      use_reranking []
    = (rbind (client (InvokeModel model_id 500 prompt)) answer_text,
       (log ++ [InvokeModel model_id 500 prompt])%list).
Proof.
  intros Hsearch.
  destruct (select_docs_of_search _ _ _ _ _ _ _ Hsearch)
    as (o & otexts & _ & _ & Hcase).
  destruct Hcase as [(_ & Hsel) | (_ & _ & rr & rtexts & _ & _ & Hsel)];
    eexists;
    apply (retrieve_and_generate_run _ _ _ _ _ _ _ _ _ _ Hsearch Hsel
             (build_context_strs _)).
Qed.

(** What [retrieve_and_generate] returns once the search has returned:
    the [text] of the first block of the reply's [content] and nothing
    of the later blocks; an IndexError when [content] is an empty list,
    a KeyError when the reply has no [content], and the exception of
    the model call when it fails.  All the calls have been made by
    then. *)
Theorem answer_is_first_block_text (client : Client)
    (query kb_id rerank_model_arn use_reranking results : PyVal)
    (log : list Call) :
  search_kb_with_optional_rerank client query kb_id rerank_model_arn
    use_reranking [] = (Ok results, log) ->
  exists prompt,
    let run := retrieve_and_generate client query kb_id rerank_model_arn
                 use_reranking [] in
    snd run = (log ++ [InvokeModel model_id 500 prompt])%list
    /\ (forall body first rest,
          client (InvokeModel model_id 500 prompt) = Ok (VDict body) ->
          dict_lookup "content" body = Some (VList (first :: rest)) ->
          fst run = py_getitem "text" first)
    /\ (forall body,
          client (InvokeModel model_id 500 prompt) = Ok (VDict body) ->
          dict_lookup "content" body = Some (VList []) ->
          fst run = Raise IndexError)
    /\ (forall body,
          client (InvokeModel model_id 500 prompt) = Ok (VDict body) ->
          dict_lookup "content" body = None ->
          fst run = Raise KeyError)
    /\ (forall e,
          client (InvokeModel model_id 500 prompt) = Raise e ->
          fst run = Raise e).
Proof.
  intros Hsearch.
  destruct (retrieve_and_generate_after_search _ _ _ _ _ _ _ Hsearch)
    as (prompt & Hrun).
  exists prompt. cbv zeta. rewrite Hrun. cbn [fst snd].
  split; [reflexivity|]. repeat split.
  - intros body first rest Hreply Hcontent. rewrite Hreply.
    unfold answer_text. cbn [rbind py_getitem]. rewrite Hcontent.
    reflexivity.
  - intros body Hreply Hcontent. rewrite Hreply.
    unfold answer_text. cbn [rbind py_getitem]. rewrite Hcontent.
    reflexivity.
  - intros body Hreply Hcontent. rewrite Hreply.
    unfold answer_text. cbn [rbind py_getitem]. rewrite Hcontent.
    reflexivity.
  - intros e Hreply. rewrite Hreply. reflexivity.
Qed.

Lemma answer_is_first_block_text_witness :
  fst (retrieve_and_generate sample_client sample_query (VStr "KB1")
         sample_arn (VBool false) [])
  = Ok (VStr "Sales grew.").
Proof.
  destruct (answer_is_first_block_text sample_client sample_query
              (VStr "KB1") sample_arn (VBool false)
              (VDict [("original_results",
                       VList (retrieved_entries 0
                                [VFloat "0.71"; VFloat "0.64"]
                                sample_documents))])
              [Retrieve (VStr "KB1") sample_query 5])
    as (prompt & _ & Hfirst & _).
  - vm_compute. reflexivity.
  - apply (Hfirst [("content", VList [VDict [("text", VStr "Sales grew.")]])]
             (VDict [("text", VStr "Sales grew.")]) []); reflexivity.
Defined.

(* ------------------------------------------------------------------ *)
(** ** The display cells                                                *)
(* ------------------------------------------------------------------ *)

Lemma show_original_cons (position : Z) (score : PyVal) (text : string)
    (rest : list PyVal) (w : World) :
  Compare.show_original (RetrievedDocument position score text :: rest) w
  = Compare.show_original rest
      (fst w,
       (snd w
        ++ ["Position " ++ str_of_int position ++ " (Score: "
            ++ py_str score ++ "):" ++ nl;
            text ++ nl ++ nl]%string)%list).
Proof.
  cbn [Compare.show_original]. unfold cbind, clift, print.
  cbn [fst snd py_getitem RetrievedDocument dict_lookup String.eqb
       Ascii.eqb Bool.eqb py_str py_repr].
  rewrite <- app_assoc. rewrite !str_app_assoc. reflexivity.
Qed.

Lemma show_original_entries (scores : list PyVal) (texts : list string)
    (w : World) :
  length scores = length texts ->
  Compare.show_original (firstn 3 (retrieved_entries 0 scores texts)) w
  = (Ok tt, (fst w, (snd w ++ original_lines scores texts)%list)).
Proof.
  destruct w as [log out]. intros Hlen.
  destruct scores as [|s1 [|s2 [|s3 scores]]];
    destruct texts as [|t1 [|t2 [|t3 texts]]]; try discriminate Hlen;
    unfold original_lines;
    cbn [combine flat_map app retrieved_entries firstn];
    rewrite ?show_original_cons; cbn [Compare.show_original cret fst snd];
    rewrite <- ?app_assoc; rewrite ?app_nil_r; reflexivity.
Qed.

(** The first cell of section 6 never fails after the search: with a
    retrieve response from which documents are extracted it makes the
    one retrieve call, no rerank call, and writes the two headings and,
    for each of the first three hits, its position from 1, its score
    and its stored text. *)
Theorem without_reranking_output (client : Client) (globals : Setup.Globals)
    (kb_response : PyVal) (original_results : list PyVal)
    (documents : list string) :
  client (Retrieve (Setup.knowledge_base_id globals) Compare.query 5)
  = Ok kb_response ->
  extract_documents kb_response = Ok (original_results, documents) ->
  exists hits scores,
    retrieval_hits kb_response = Ok hits
    /\ Forall2 (fun hit score => py_get "scoreValue" (VInt 0) hit = Ok score)
         hits scores
    /\ Compare.without_reranking client globals ([], [])
       = (Ok tt,
          ([Retrieve (Setup.knowledge_base_id globals) Compare.query 5],
           [("WITHOUT RERANKING:" ++ nl)%string;
            (nl ++ "TOP 3 DOCUMENTS WITHOUT RERANKING:" ++ nl)%string]
           ++ original_lines scores documents)%list).
Proof.
  intros Hkb Hdocs.
  pose proof Hdocs as Hinv. apply extract_documents_inv in Hinv.
  destruct Hinv as (hits & scores & Hhits & Ht & Hs & Ho).
  exists hits, scores. split; [exact Hhits|]. split; [exact Hs|].
  assert (Hlen : length scores = length documents).
  { apply Forall2_same_length in Ht. apply Forall2_same_length in Hs.
    congruence. }
  unfold Compare.without_reranking, cbind, print, run_calls.
  cbn [fst snd]. rewrite search_run. cbv zeta. rewrite Hkb, Hdocs.
  cbn [rerank_enabled truthy andb fst snd app].
  unfold clift, Compare.top3.
  cbn [py_getitem dict_lookup String.eqb Ascii.eqb Bool.eqb rbind
       py_slice_to py_iter].
  rewrite Ho, (show_original_entries scores documents _ Hlen).
  reflexivity.
Qed.

Lemma without_reranking_output_witness :
  Compare.without_reranking sample_client
    sample_globals ([], [])
  = (Ok tt,
     ([Retrieve (VStr "KB1") Compare.query 5],
      ["WITHOUT RERANKING:" ++ nl;
       nl ++ "TOP 3 DOCUMENTS WITHOUT RERANKING:" ++ nl;
       "Position 1 (Score: 0.71):" ++ nl;
       str_prefix 300 long_text ++ "..." ++ nl ++ nl;
       "Position 2 (Score: 0.64):" ++ nl;
       "net sales grew in 2023" ++ nl ++ nl])).
Proof.
  destruct (without_reranking_output sample_client
              sample_globals
              sample_kb_response
              (retrieved_entries 0 [VFloat "0.71"; VFloat "0.64"]
                 sample_documents)
              sample_documents)
    as (hits & scores & Hhits & Hscores & Hrun).
  - reflexivity.
  - vm_compute. reflexivity.
  - vm_compute in Hhits. injection Hhits as <-.
    inversion Hscores as [|h1 s1 hs ss H1 Hrest]; subst.
    inversion Hrest as [|h2 s2 hs' ss' H2 Hnil]; subst.
    inversion Hnil; subst.
    vm_compute in H1. injection H1 as <-.
    vm_compute in H2. injection H2 as <-.
    rewrite Hrun. vm_compute. reflexivity.
Defined.

Lemma show_reranked_cons (original_position new_position : Z) (score : PyVal)
    (text : string) (rest : list PyVal) (w : World) :
  Compare.show_reranked
    (RerankedDocument original_position new_position score text :: rest) w
  = Compare.show_reranked rest
      (fst w,
       (snd w
        ++ ["Moved from position " ++ str_of_int original_position ++ " to "
            ++ str_of_int new_position ++ nl;
            "Relevance score: " ++ py_str score ++ nl;
            text ++ nl ++ nl]%string)%list).
Proof.
  cbn [Compare.show_reranked]. unfold cbind, clift, print.
  cbn [fst snd py_getitem RerankedDocument dict_lookup String.eqb
       Ascii.eqb Bool.eqb py_str py_repr].
  rewrite <- !app_assoc. rewrite !str_app_assoc. reflexivity.
Qed.

Lemma show_reranked_entries (reads : list (Z * PyVal * string)) (w : World) :
  Compare.show_reranked (firstn 3 (reranked_from 0 reads)) w
  = (Ok tt, (fst w, (snd w ++ reranked_lines reads)%list)).
Proof.
  destruct w as [log out].
  destruct reads as [|[[i1 s1] d1] [|[[i2 s2] d2] [|[[i3 s3] d3] reads]]];
    unfold reranked_lines;
    cbn [combine flat_map app reranked_from firstn];
    rewrite ?show_reranked_cons; cbn [Compare.show_reranked cret fst snd];
    rewrite <- ?app_assoc; rewrite ?app_nil_r; reflexivity.
Qed.

Lemma setup_run_rerank_arn (variables : PyVal) (globals : Setup.Globals) :
  Setup.run variables = Ok globals ->
  Setup.rerank_model_arn globals
  = "arn:aws:bedrock:us-west-2::foundation-model/cohere.rerank-v3-5:0".
Proof.
  unfold Setup.run. intros H.
  apply rbind_ok in H. destruct H as (region & _ & H).
  apply rbind_ok in H. destruct H as (account & _ & H).
  apply rbind_ok in H. destruct H as (kb & _ & H).
  injection H as <-. reflexivity.
Qed.

(** The second cell of section 6 reads [reranked_results] without
    testing for it: when no document was extracted from the retrieve
    response, the search returns without that key and the cell stops
    with a KeyError, after the retrieve call and after writing its two
    headings. *)
Theorem with_reranking_fails_without_documents (client : Client)
    (globals : Setup.Globals) (kb_response : PyVal)
    (original_results : list PyVal) :
  client (Retrieve (Setup.knowledge_base_id globals) Compare.query 5)
  = Ok kb_response ->
  extract_documents kb_response = Ok (original_results, []) ->
  Compare.with_reranking client globals ([], [])
  = (Raise KeyError,
     ([Retrieve (Setup.knowledge_base_id globals) Compare.query 5],
      [nl ++ "WITH RERANKING:" ++ nl;
       nl ++ "TOP 3 DOCUMENTS AFTER RERANKING:" ++ nl])).
Proof.
  intros Hkb Hdocs.
  unfold Compare.with_reranking, cbind, print, run_calls.
  cbn [fst snd]. rewrite search_run. cbv zeta. rewrite Hkb, Hdocs.
  unfold rerank_enabled. rewrite andb_false_r. reflexivity.
Qed.

Lemma with_reranking_fails_without_documents_witness :
  Compare.with_reranking
    (fun _ => Ok (VDict [("retrievalResults", VList [])]))
    sample_globals ([], [])
  = (Raise KeyError,
     ([Retrieve (VStr "KB1") Compare.query 5],
      [nl ++ "WITH RERANKING:" ++ nl;
       nl ++ "TOP 3 DOCUMENTS AFTER RERANKING:" ++ nl])).
Proof.
  apply (with_reranking_fails_without_documents
           (fun _ => Ok (VDict [("retrievalResults", VList [])]))
           sample_globals
           (VDict [("retrievalResults", VList [])]) []); reflexivity.
Defined.

(** With documents and a rerank response that is mapped, the second
    cell of section 6 makes the retrieve call and the rerank call and
    writes, after its two headings, three lines for each of the first
    three reranked results: the move from index + 1 to the place in the
    response counted from 1, the relevance score, and the stored
    text. *)
Theorem with_reranking_output (client : Client) (variables : PyVal)
    (globals : Setup.Globals) (kb_response reranked : PyVal)
    (original_results reranked_results : list PyVal)
    (documents : list string) :
  Setup.run variables = Ok globals ->
  client (Retrieve (Setup.knowledge_base_id globals) Compare.query 5)
  = Ok kb_response ->
  extract_documents kb_response = Ok (original_results, documents) ->
  documents <> [] ->
  client (Rerank Compare.query (VStr (Setup.rerank_model_arn globals)) 5
            documents) = Ok reranked ->
  process_reranked documents reranked = Ok reranked_results ->
  exists entries reads,
    reranked_entries reranked = Ok entries
    /\ Forall2 (entry_read documents) entries reads
    /\ Compare.with_reranking client globals ([], [])
       = (Ok tt,
          ([Retrieve (Setup.knowledge_base_id globals) Compare.query 5;
            Rerank Compare.query (VStr (Setup.rerank_model_arn globals)) 5
              documents],
           [(nl ++ "WITH RERANKING:" ++ nl)%string;
            (nl ++ "TOP 3 DOCUMENTS AFTER RERANKING:" ++ nl)%string]
           ++ reranked_lines reads)%list).
Proof.
  intros Hsetup Hkb Hdocs Hne Hcall Hproc.
  pose proof Hproc as Hinv. apply process_reranked_inv in Hinv.
  destruct Hinv as (entries & reads & Hentries & Hreads & Hrr).
  exists entries, reads. split; [exact Hentries|]. split; [exact Hreads|].
  assert (Hen : rerank_enabled (VBool true)
                  (VStr (Setup.rerank_model_arn globals)) documents = true).
  { apply rerank_enabled_iff. split; [reflexivity|]. split; [|exact Hne].
    rewrite (setup_run_rerank_arn _ _ Hsetup). reflexivity. }
  unfold Compare.with_reranking, cbind, print, run_calls.
  cbn [fst snd]. rewrite search_run. cbv zeta.
  rewrite Hkb, Hdocs, Hen, Hcall, Hproc.
  cbn [fst snd app]. unfold clift, Compare.top3.
  cbn [py_getitem dict_lookup String.eqb Ascii.eqb Bool.eqb rbind
       py_slice_to py_iter].
  rewrite Hrr, (show_reranked_entries reads _).
  reflexivity.
Qed.

Lemma with_reranking_output_witness :
  exists globals reads,
    Setup.run sample_variables = Ok globals
    /\ Compare.with_reranking sample_client globals ([], [])
       = (Ok tt,
          ([Retrieve (Setup.knowledge_base_id globals) Compare.query 5;
            Rerank Compare.query (VStr (Setup.rerank_model_arn globals)) 5
              sample_documents],
           [(nl ++ "WITH RERANKING:" ++ nl)%string;
            (nl ++ "TOP 3 DOCUMENTS AFTER RERANKING:" ++ nl)%string]
           ++ reranked_lines reads)%list).
Proof.
  eexists.
  destruct (with_reranking_output sample_client sample_variables _
              sample_kb_response sample_reranked
              (retrieved_entries 0 [VFloat "0.71"; VFloat "0.64"]
                 sample_documents)
              (reranked_from 0
                 [(1, VFloat "0.93", "net sales grew in 2023");
                  (0, VFloat "0.12", long_text)])
              sample_documents eq_refl)
    as (entries & reads & _ & _ & Hrun).
  - reflexivity.
  - vm_compute. reflexivity.
  - discriminate.
  - reflexivity.
  - vm_compute. reflexivity.
  - exists reads. split; [reflexivity | exact Hrun].
Defined.

(** The same run, written out. *)
Example with_reranking_sample_output :
  exists globals,
    Setup.run sample_variables = Ok globals
    /\ Compare.with_reranking sample_client globals ([], [])
       = (Ok tt,
          ([Retrieve (VStr "KB1") Compare.query 5;
            Rerank Compare.query sample_arn 5 sample_documents],
           [nl ++ "WITH RERANKING:" ++ nl;
            nl ++ "TOP 3 DOCUMENTS AFTER RERANKING:" ++ nl;
            "Moved from position 2 to 1" ++ nl;
            "Relevance score: 0.93" ++ nl;
            "net sales grew in 2023..." ++ nl ++ nl;
            "Moved from position 1 to 2" ++ nl;
            "Relevance score: 0.12" ++ nl;
            str_prefix 300 long_text ++ "..." ++ nl ++ nl])).
Proof.
  eexists. split; [reflexivity|]. vm_compute. reflexivity.
Qed.

(* ------------------------------------------------------------------ *)
(** ** The configuration cell                                           *)
(* ------------------------------------------------------------------ *)

(** The configuration cell returns exactly when the loaded variables
    have the three keys it reads, and fails with a KeyError otherwise.
    The generation model ARN it builds carries the account number of
    the variables and always the region us-west-2, whatever
    [regionName] holds; the knowledge base is the one of
    [kbFixedChunk]; the rerank model ARN is a constant. *)
Theorem setup_needs_three_keys (variables : list (string * PyVal)) :
  ((exists globals, Setup.run (VDict variables) = Ok globals)
   <-> dict_has "regionName" variables = true
       /\ dict_has "accountNumber" variables = true
       /\ dict_has "kbFixedChunk" variables = true)
  /\ (forall e, Setup.run (VDict variables) = Raise e -> e = KeyError)
  /\ (forall globals,
        Setup.run (VDict variables) = Ok globals ->
        exists account,
          dict_lookup "accountNumber" variables = Some account
          /\ Setup.model_arn globals
             = "arn:aws:bedrock:us-west-2:" ++ py_str account
               ++ ":inference-profile/us.amazon.nova-pro-v1:0"
          /\ dict_lookup "kbFixedChunk" variables
             = Some (Setup.knowledge_base_id globals)
          /\ dict_lookup "regionName" variables
             = Some (Setup.regionName globals)
          /\ Setup.rerank_model_arn globals
             = "arn:aws:bedrock:us-west-2::foundation-model/cohere.rerank-v3-5:0").
Proof.
  unfold Setup.run, dict_has. cbn [py_getitem].
  destruct (dict_lookup "regionName" variables) as [region|];
    destruct (dict_lookup "accountNumber" variables) as [account|];
    destruct (dict_lookup "kbFixedChunk" variables) as [kb|];
    cbn [rbind];
    (split; [split; [intros (g & Hg); try discriminate; auto
                    | intros (H1 & H2 & H3); try discriminate; eauto]
            | split; [intros e He; try discriminate; injection He as <-;
                      reflexivity
                     | intros g Hg; try discriminate]]).
  injection Hg as <-. exists account. cbn. auto.
Qed.

Lemma setup_needs_three_keys_witness :
  exists globals,
    Setup.run sample_variables = Ok globals
    /\ Setup.model_arn globals
       = "arn:aws:bedrock:us-west-2:123456789012:inference-profile/us.amazon.nova-pro-v1:0".
Proof.
  destruct (setup_needs_three_keys
              [("accountNumber", VStr "123456789012");
               ("regionName", VStr "us-west-2");
               ("kbFixedChunk", VStr "KB1")])
    as ((_ & Hreturns) & _ & Harn).
  destruct Hreturns as (globals & Hrun); [repeat split|].
  exists globals. split; [exact Hrun|].
  destruct (Harn globals Hrun) as (account & Haccount & Hmodel & _).
  injection Haccount as <-. exact Hmodel.
Defined.

(* ------------------------------------------------------------------ *)
(** ** The whole comparison                                             *)
(* ------------------------------------------------------------------ *)






Section ComparisonRuns.

Variable client : Client.
Variable variables : PyVal.
Variable globals : Setup.Globals.
Hypothesis Hsetup : Setup.run variables = Ok globals.

Let kb_id : PyVal := Setup.knowledge_base_id globals.






End ComparisonRuns.


